(** * The vSphere Template post-processor

    A shallow embedding of [post-processor/vsphere-template/post-processor.go]
    (package [vsphere_template]) and the properties of its two entry points,
    [Configure] and [PostProcess].

    The Go code talks to three collaborators that live outside the file: the
    vSphere client ([govmomi.NewClient], [Client.Logout]), the step runner of
    the plugin SDK, and the four steps of the package.  Their behaviour is a
    parameter of the development (a [World]); everything the file itself does
    — gating, ordering of calls, construction of the step list, error
    wrapping, the deferred logout — is modelled as written. *)

From Stdlib Require Import ZArith Ascii String.
From stdpp Require Import base strings gmap list.

Local Open Scope string_scope.
Local Open Scope list_scope.

(** ** Values of the plugin SDK *)

Module packersdk.

(** Go [error] values.  [errorString] stands for what [errors.New] and
    [fmt.Errorf] build (only the message is ever read back), [MultiError]
    for [*packersdk.MultiError] with its [Errors] slice. *)
#[local] Set Warnings "-register-all".
Inductive error : Type :=
| errorString (msg : string)
| MultiError (Errors : list error).

(** Modelled from the spec: [packersdk.MultiErrorAppend] is not part of the
    source file.  Validation errors "are detected and aggregated (all
    missing required fields reported together)": appending keeps the errors
    gathered so far and adds the new one at the end of the slice. *)
Definition MultiErrorAppend (errs : list error) (e : error) : list error :=
  errs ++ [e].

(** [packersdk.Ui]: only [Message] is called on it; the handle is opaque. *)
Record Ui : Type := { ui_handle : nat }.

End packersdk.
Export packersdk.

Module govmomi.
(** [*govmomi.Client]: an opaque session handle. *)
Record Client : Type := { session : nat }.
End govmomi.
Export govmomi.

(** A Go [interface{}] value, as far as this package inspects one. *)
Inductive Value : Type :=
| VNil
| VString (s : string)
| VBool (b : bool)
| VUi (ui : Ui)
| VClient (c : Client)
| VError (e : error)
| VRef (path : string).

(** [v == "lit"] for an interface value [v] and a string constant: true only
    when the dynamic type is string and the contents are equal. *)
Definition iface_eq_string (v : Value) (lit : string) : bool :=
  match v with
  | VString s => String.eqb s lit
  | _ => false
  end.

(** [packersdk.Artifact], restricted to the two methods the file calls. *)
Record Artifact : Type := {
  BuilderId : string;
  State : string -> Value
}.

(** ** [net/url] *)

Module net_url.
Record Userinfo : Type := {
  username : string;
  password : string;
  passwordSet : bool
}.

Definition UserPassword (u p : string) : Userinfo :=
  {| username := u; password := p; passwordSet := true |}.

Record URL : Type := {
  Scheme : string;
  User : option Userinfo;
  Host : string;
  Path : string
}.

Definition set_User (u : URL) (ui : Userinfo) : URL :=
  {| Scheme := Scheme u; User := Some ui; Host := Host u; Path := Path u |}.
End net_url.

(** ** Constants and types of the package *)

Definition BuilderIdESX : string := "mitchellh.vmware-esx".

Definition ArtifactConfFormat : string := "artifact.conf.format".
Definition ArtifactConfKeepRegistered : string := "artifact.conf.keep_registered".
Definition ArtifactConfSkipExport : string := "artifact.conf.skip_export".

(** [config.Trilean] *)
Inductive Trilean : Type := TriUnset | TriTrue | TriFalse.

(** [common.PackerConfig] is only handed on to the runner. *)
Record PackerConfig : Type := {
  PackerDebug : bool;
  PackerOnError : string
}.

Record Config : Type := {
  PackerConfig_ : PackerConfig;
  Host : string;
  Insecure : bool;
  Username : string;
  Password : string;
  Datacenter : string;
  Folder : string;
  SnapshotEnable : bool;
  SnapshotName : string;
  SnapshotDescription : string;
  ReregisterVM : Trilean
}.

(** [url] is a pointer in the source: [None] is the nil pointer of a
    post-processor that was never configured. *)
Record PostProcessor : Type := {
  config : Config;
  url : option net_url.URL
}.

(** ** [multistep] *)

Module multistep.

Inductive StepAction : Type := ActionContinue | ActionHalt.

(** [multistep.BasicStateBag]: a string-keyed map of interface values. *)
Abbreviation StateBag := (gmap string Value).

Definition Put (state : StateBag) (k : string) (v : Value) : StateBag :=
  <[k := v]> state.

Definition GetOk (state : StateBag) (k : string) : option Value :=
  state !! k.

(** [context.Context], seen from the runner: the context is cancelled once
    [cancelled_after] steps have completed ([None]: never). *)
Record Context : Type := { cancelled_after : option nat }.

Definition ctx_Err (ctx : Context) (completed : nat) : bool :=
  match cancelled_after ctx with
  | Some n => Nat.leb n completed
  | None => false
  end.

End multistep.
Export multistep.

(** The four steps of the package.  [stepCreateSnapshot] and
    [stepMarkAsTemplate] are built by [NewStepCreateSnapshot(artifact, p)] and
    [NewStepMarkAsTemplate(artifact, p)] and keep what they were built from. *)
Inductive Step : Type :=
| stepChooseDatacenter (Datacenter : string)
| stepCreateFolder (Folder : string)
| stepCreateSnapshot (artifact : Artifact) (p : PostProcessor)
| stepMarkAsTemplate (artifact : Artifact) (p : PostProcessor).

Definition NewStepCreateSnapshot (artifact : Artifact) (p : PostProcessor) : Step :=
  stepCreateSnapshot artifact p.

Definition NewStepMarkAsTemplate (artifact : Artifact) (p : PostProcessor) : Step :=
  stepMarkAsTemplate artifact p.

Inductive StepKind : Type :=
  ChooseDatacenter | CreateFolder | CreateSnapshot | MarkAsTemplate.

Definition kind_of (s : Step) : StepKind :=
  match s with
  | stepChooseDatacenter _ => ChooseDatacenter
  | stepCreateFolder _ => CreateFolder
  | stepCreateSnapshot _ _ => CreateSnapshot
  | stepMarkAsTemplate _ _ => MarkAsTemplate
  end.

(** ** Observable calls

    Every call the post-processor makes on a collaborator is logged, in the
    order the calls happen. *)
Inductive Event : Type :=
| EvMessage (ui : Ui) (msg : string)
| EvSleep (d : Z)
| EvNewClient (u : option net_url.URL) (insecure : bool)
| EvStepRun (s : Step)
| EvStepCleanup (s : Step)
| EvLogout (c : Client).

Definition is_logout (e : Event) : bool :=
  match e with EvLogout _ => true | _ => false end.

Definition is_sleep (e : Event) : bool :=
  match e with EvSleep _ => true | _ => false end.

Definition is_new_client (e : Event) : bool :=
  match e with EvNewClient _ _ => true | _ => false end.

(** The steps run, in the order they were run, and their kinds. *)
Definition steps_run (tr : list Event) : list Step :=
  omap (fun e => match e with EvStepRun s => Some s | _ => None end) tr.

Definition kinds_run (tr : list Event) : list StepKind :=
  kind_of <$> steps_run tr.

(** [time.Duration] counts nanoseconds. *)
Definition time_Second : Z := 1000000000.

(** What a call of [PostProcess] ends in: the four results, or the run-time
    panic of the unchecked type assertion [rawErr.(error)]. *)
Inductive Outcome : Type :=
| Return (a : option Artifact) (keep : bool) (forceOverride : bool) (err : option error)
| Panic.

(** ** Effects

    The remote endpoint has a state of its own (type [R]) that every remote
    call may read and change.  A computation threads that state and yields
    the calls it made, oldest first. *)

Definition M (R A : Type) : Type := R -> A * list Event * R.

Definition ret {R A} (a : A) : M R A := fun r => (a, [], r).

Definition bind {R A B} (m : M R A) (k : A -> M R B) : M R B :=
  fun r =>
    let '(a, t1, r1) := m r in
    let '(b, t2, r2) := k a r1 in
    (b, t1 ++ t2, r2).

Definition emit {R} (e : Event) : M R unit := fun r => (tt, [e], r).

(** A call on the remote side: its result and the new remote state. *)
Definition remote_call {R A} (f : R -> A * R) : M R A :=
  fun r => let '(a, r') := f r in (a, [], r').

Declare Scope go_scope.
Delimit Scope go_scope with go.
Notation "x <- m ;; k" := (bind m (fun x => k))
  (at level 100, m at next level, right associativity) : go_scope.
Notation "m ;;; k" := (bind m (fun _ => k))
  (at level 100, right associativity) : go_scope.

(** [defer d] in front of [body]: [d] runs when [body] is left, whatever
    [body] yields, and the value of [body] is the value of the whole. *)
Definition defer {R A} (d : M R unit) (body : M R A) : M R A :=
  (x <- body ;; d ;;; ret x)%go.

Definition result {R A} (x : A * list Event * R) : A := x.1.1.
Definition calls {R A} (x : A * list Event * R) : list Event := x.1.2.
Definition remote_after {R A} (x : A * list Event * R) : R := x.2.

(** ** The collaborators

    Errors of collaborators are given by their [Error()] text, which is all
    the source reads of them. *)
Record World (R : Type) : Type := {
  (** [govmomi.NewClient(ctx, u, insecure)] *)
  NewClient : option net_url.URL -> bool -> R -> (Client + string) * R;
  (** [c.Logout(ctx)]: [Some msg] is a failed logout *)
  Client_Logout : Client -> R -> option string * R;
  (** [step.Run(ctx, state)] *)
  step_Run : Step -> Context -> StateBag -> R -> (StepAction * StateBag) * R;
  (** [step.Cleanup(state)] *)
  step_Cleanup : Step -> StateBag -> R -> StateBag * R
}.
Arguments NewClient {R}.
Arguments Client_Logout {R}.
Arguments step_Run {R}.
Arguments step_Cleanup {R}.

Section Runner.
Context {R : Type} (w : World R).
Local Open Scope go_scope.

Definition Ui_Message (ui : Ui) (msg : string) : M R unit :=
  emit (EvMessage ui msg).

Definition time_Sleep (d : Z) : M R unit := emit (EvSleep d).

Definition govmomi_NewClient (u : option net_url.URL) (insecure : bool)
  : M R (Client + string) :=
  emit (EvNewClient u insecure) ;;; remote_call (NewClient w u insecure).

Definition Run_step (s : Step) (ctx : Context) (state : StateBag)
  : M R (StepAction * StateBag) :=
  emit (EvStepRun s) ;;; remote_call (step_Run w s ctx state).

Definition Cleanup_step (s : Step) (state : StateBag) : M R StateBag :=
  emit (EvStepCleanup s) ;;; remote_call (step_Cleanup w s state).

Record BasicRunner : Type := { Steps : list Step }.

(** Modelled from the spec: [commonsteps.NewRunnerWithPauseFn] and the
    runner's [Run] belong to the plugin SDK and are not part of the source
    file.  The runner "holds an ordered sequence of Steps"; the pause
    predicate is "an extension point, not a correctness requirement" and
    is left out. *)
Definition NewRunnerWithPauseFn (steps : list Step) (cfg : PackerConfig)
    (ui : Ui) (state : StateBag) : BasicRunner :=
  {| Steps := steps |}.

(** Modelled from the spec: the runner "executes them strictly in that
    order"; it "checks a cancellation signal between steps" and "reports a
    distinct Cancelled outcome"; "on a step signaling Halt or raising a
    failure, the runner stops immediately, does not run later steps";
    "once an error key is set, no further step may run".  [executed] is the
    stack of the steps run so far, the last one on top. *)
Fixpoint run_steps (ctx : Context) (completed : nat) (steps : list Step)
    (executed : list Step) (state : StateBag) : M R (list Step * StateBag) :=
  match steps with
  | [] => ret (executed, state)
  | step :: rest =>
      if ctx_Err ctx completed
      then ret (executed, Put state "cancelled" (VBool true))
      else
        r <- Run_step step ctx state ;;
        let '(action, state) := r in
        match action, GetOk state "error" with
        | ActionContinue, None =>
            run_steps ctx (S completed) rest (step :: executed) state
        | _, _ => ret (step :: executed, Put state "halted" (VBool true))
        end
  end.

(** Modelled from the spec: the runner "unwinds cleanup hooks for
    already-executed steps in reverse order (last-in-first-out)". *)
Fixpoint run_cleanup (executed : list Step) (state : StateBag) : M R StateBag :=
  match executed with
  | [] => ret state
  | step :: rest =>
      state <- Cleanup_step step state ;;
      run_cleanup rest state
  end.

(** Modelled from the spec: a run is the forward pass over the steps
    followed by the cleanup of the steps that were executed. *)
Definition Run (runner : BasicRunner) (ctx : Context) (state : StateBag)
  : M R StateBag :=
  r <- run_steps ctx 0 (Steps runner) [] state ;;
  let '(executed, state) := r in
  run_cleanup executed state.

End Runner.

(** ** [PostProcess] *)

Section PostProcess.
(** [vspherepost.BuilderId] and [vsphere.BuilderId] are constants of two
    other packages of the repository. *)
Variables vspherepost_BuilderId vsphere_BuilderId : string.
Context {R : Type} (w : World R).
Local Open Scope go_scope.

Definition builtins : gmap string string :=
  <[vspherepost_BuilderId := "vmware"]>
    (<[BuilderIdESX := "vmware"]>
       (<[vsphere_BuilderId := "vsphere"]>
          (<["packer.post-processor.artifice" := "artifice"]> ∅))).

Definition unsupported_artifact (id : string) : error :=
  errorString
    ("The Packer vSphere Template post-processor " +:+
     "can only take an artifact from the VMware-iso builder, built on " +:+
     "ESXi (i.e. remote) or an artifact from the vSphere post-processor. " +:+
     "Artifact type " +:+ id +:+ " does not fit this requirement").

Definition conflicting_export : error :=
  errorString
    "To use this post-processor with exporting behavior you need set keep_registered as true".

Definition connect_failed (err : string) : error :=
  errorString ("Error connecting to vSphere: " +:+ err).

(** The condition of the second [if] of [PostProcess]. *)
Definition export_conflict (f k s : Value) : bool :=
  negb (iface_eq_string f "") && negb (iface_eq_string k "true")
  && iface_eq_string s "false".

Definition Logout (p : PostProcessor) (c : Client) : M R unit :=
  emit (EvLogout c) ;;;
  _ <- remote_call (Client_Logout w c) ;;
  ret tt.

Definition steps_of (p : PostProcessor) (artifact : Artifact) : list Step :=
  [ stepChooseDatacenter (Datacenter (config p));
    stepCreateFolder (Folder (config p));
    NewStepCreateSnapshot artifact p;
    NewStepMarkAsTemplate artifact p ].

Definition PostProcess (p : PostProcessor) (ctx : Context) (ui : Ui)
    (artifact : Artifact) : M R Outcome :=
  match builtins !! BuilderId artifact with
  | None =>
      ret (Return None false false
             (Some (unsupported_artifact (BuilderId artifact))))
  | Some _ =>
      let f := State artifact ArtifactConfFormat in
      let k := State artifact ArtifactConfKeepRegistered in
      let s := State artifact ArtifactConfSkipExport in
      if export_conflict f k s
      then ret (Return None false false (Some conflicting_export))
      else
        Ui_Message ui "Waiting 10s for VMware vSphere to start" ;;;
        time_Sleep (10 * time_Second) ;;;
        c <- govmomi_NewClient w (url p) (Insecure (config p)) ;;
        match c with
        | inr err => ret (Return None false false (Some (connect_failed err)))
        | inl c =>
            defer (Logout p c)
              (let state : StateBag := ∅ in
               let state := Put state "ui" (VUi ui) in
               let state := Put state "client" (VClient c) in
               let steps := steps_of p artifact in
               let runner :=
                 NewRunnerWithPauseFn steps (PackerConfig_ (config p)) ui state in
               state <- Run w runner ctx state ;;
               match GetOk state "error" with
               | Some (VError rawErr) => ret (Return None false false (Some rawErr))
               | Some _ => ret Panic
               | None => ret (Return (Some artifact) true true None)
               end)
        end
  end.

(** Names for what [PostProcess] hands to the runner: the seeded state bag
    and the run itself. *)
Definition seeded (ui : Ui) (c : Client) : StateBag :=
  Put (Put ∅ "ui" (VUi ui)) "client" (VClient c).

Definition run_of (p : PostProcessor) (ctx : Context) (ui : Ui)
    (artifact : Artifact) (c : Client) : M R StateBag :=
  Run w (NewRunnerWithPauseFn (steps_of p artifact) (PackerConfig_ (config p))
           ui (seeded ui c))
      ctx (seeded ui c).

(** The condition of the export gate on an artifact. *)
Definition conflict_of (artifact : Artifact) : bool :=
  export_conflict (State artifact ArtifactConfFormat)
                  (State artifact ArtifactConfKeepRegistered)
                  (State artifact ArtifactConfSkipExport).

(** An artifact passes validation when its builder is listed and the
    export gate stays open. *)
Definition accepted (artifact : Artifact) : Prop :=
  is_Some (builtins !! BuilderId artifact) /\ conflict_of artifact = false.

(** The calls every accepted artifact starts with. *)
Definition settling (p : PostProcessor) (ui : Ui) : list Event :=
  [ EvMessage ui "Waiting 10s for VMware vSphere to start";
    EvSleep 10000000000;
    EvNewClient (url p) (Insecure (config p)) ].

End PostProcess.

(** The same collaborators with another logout. *)
Definition with_Logout {R} (w : World R) (logout : Client -> R -> option string * R)
  : World R :=
  {| NewClient := NewClient w;
     Client_Logout := logout;
     step_Run := step_Run w;
     step_Cleanup := step_Cleanup w |}.

(** What the pipeline and the user see of a call: the results and the calls
    made, [ui.Message] among them. *)
Definition observable {R A} (x : A * list Event * R) : A * list Event :=
  (result x, calls x).

(** ** [Configure] *)

Section Configure.
(** [config.Decode] (plugin SDK) and [url.Parse] (standard library) are
    taken as they come: [config_Decode cfg raws] is the configuration after
    decoding [raws] over [cfg] together with the error returned, and
    [url_Parse s] is the parsed URL or the text of the parse error. *)
Variable Raws : Type.
Variable config_Decode : Config -> Raws -> Config * option error.
Variable url_Parse : string -> net_url.URL + string.

(** The map [vc]; its values are the pointed-to fields. *)
Definition vc (c : Config) : gmap string string :=
  <["host" := Host c]>
    (<["username" := Username c]>
       (<["password" := Password c]> ∅)).

Definition vc_keys : list string := ["host"; "username"; "password"].

Definition must_be_set (key : string) : error :=
  errorString (key +:+ " must be set").

Definition invalid_endpoint (err : string) : error :=
  errorString ("Error invalid vSphere sdk endpoint: " +:+ err).

(** One round of the [range] loop. *)
Definition check_key (c : Config) (errs : list error) (key : string) : list error :=
  match vc c !! key with
  | Some v => if String.eqb v "" then MultiErrorAppend errs (must_be_set key) else errs
  | None => errs
  end.

(** The error one round adds, if it adds one. *)
Definition missing_error (c : Config) (key : string) : option error :=
  match vc c !! key with
  | Some v => if String.eqb v "" then Some (must_be_set key) else None
  | None => None
  end.

(** [for key, ptr := range vc]: Go visits the keys of a map in an order of
    its own choosing, here [order]. *)
Definition check_required (c : Config) (order : list string) (errs : list error)
  : list error :=
  fold_left (check_key c) order errs.

Definition sdk_endpoint (host : string) : string :=
  "https://" +:+ host +:+ "/sdk".

Definition Configure (p : PostProcessor) (raws : Raws) (order : list string)
  : PostProcessor * option error :=
  let '(cfg, err) := config_Decode (config p) raws in
  let p := {| config := cfg; url := url p |} in
  match err with
  | Some err => (p, Some err)
  | None =>
      let errs := check_required cfg order [] in
      match url_Parse (sdk_endpoint (Host cfg)) with
      | inr err =>
          (p, Some (MultiError (MultiErrorAppend errs (invalid_endpoint err))))
      | inl sdk =>
          let sdk :=
            net_url.set_User sdk (net_url.UserPassword (Username cfg) (Password cfg)) in
          let p := {| config := cfg; url := Some sdk |} in
          if Nat.ltb 0 (length errs)
          then (p, Some (MultiError errs))
          else (p, None)
      end
  end.

End Configure.

(** ** Concrete values used in the examples *)

Module Examples.

Definition vspherepost_id : string := "packer.post-processor.vsphere".
Definition vsphere_id : string := "jetbrains.vsphere".

Definition ui0 : Ui := {| ui_handle := 0 |}.
Definition client0 : Client := {| session := 7 |}.
Definition never : Context := {| cancelled_after := None |}.

Definition cfg0 : Config :=
  {| PackerConfig_ := {| PackerDebug := false; PackerOnError := "" |};
     Host := "vcenter.example.com"; Insecure := true;
     Username := "root"; Password := "secret";
     Datacenter := ""; Folder := "templates";
     SnapshotEnable := false; SnapshotName := ""; SnapshotDescription := "";
     ReregisterVM := TriUnset |}.

Definition sdk0 : net_url.URL :=
  {| net_url.Scheme := "https"; net_url.User := Some (net_url.UserPassword "root" "secret");
     net_url.Host := "vcenter.example.com"; net_url.Path := "/sdk" |}.

Definition p0 : PostProcessor := {| config := cfg0; url := Some sdk0 |}.

(** A configuration that names the host but no user, one that names
    nothing, and a post-processor that was never configured. *)
Definition cfg_no_user : Config :=
  {| PackerConfig_ := {| PackerDebug := false; PackerOnError := "" |};
     Host := "vcenter.example.com"; Insecure := true;
     Username := ""; Password := "secret";
     Datacenter := ""; Folder := "templates";
     SnapshotEnable := false; SnapshotName := ""; SnapshotDescription := "";
     ReregisterVM := TriUnset |}.

Definition cfg_empty : Config :=
  {| PackerConfig_ := {| PackerDebug := false; PackerOnError := "" |};
     Host := ""; Insecure := false; Username := ""; Password := "";
     Datacenter := ""; Folder := "";
     SnapshotEnable := false; SnapshotName := ""; SnapshotDescription := "";
     ReregisterVM := TriUnset |}.

Definition p_fresh : PostProcessor := {| config := cfg_empty; url := None |}.

(** An artifact of the ESX builder with the given metadata. *)
Definition esx_artifact (f k s : Value) : Artifact :=
  {| BuilderId := BuilderIdESX;
     State := fun key =>
       if String.eqb key ArtifactConfFormat then f
       else if String.eqb key ArtifactConfKeepRegistered then k
       else if String.eqb key ArtifactConfSkipExport then s
       else VNil |}.

Definition plain_artifact : Artifact := esx_artifact (VString "") (VString "") (VString "").

Definition foreign_artifact : Artifact :=
  {| BuilderId := "mitchellh.virtualbox"; State := fun _ => VNil |}.

(** A remote side that counts the calls it served.  The connection and
    every step succeed; [logout_fails] decides what [Logout] answers. *)
Definition good_world (logout_fails : bool) : World nat :=
  {| NewClient := fun _ _ n => (inl client0, S n);
     Client_Logout := fun _ n =>
       (if logout_fails then Some "session is not authenticated" else None, S n);
     step_Run := fun _ _ state n => ((ActionContinue, state), S n);
     step_Cleanup := fun _ state n => (state, S n) |}.

(** As [good_world], but the step of kind [bad] stores an error and halts. *)
Definition failing_world (bad : StepKind) : World nat :=
  {| NewClient := fun _ _ n => (inl client0, S n);
     Client_Logout := fun _ n => (None, S n);
     step_Run := fun s _ state n =>
       match kind_of s, bad with
       | ChooseDatacenter, ChooseDatacenter
       | CreateFolder, CreateFolder
       | CreateSnapshot, CreateSnapshot
       | MarkAsTemplate, MarkAsTemplate =>
           ((ActionHalt, Put state "error" (VError (errorString "step failed"))), S n)
       | _, _ => ((ActionContinue, state), S n)
       end;
     step_Cleanup := fun _ state n => (state, S n) |}.

(** A remote side that refuses the connection. *)
Definition unreachable_world : World nat :=
  {| NewClient := fun _ _ n => (inr "dial tcp: connection refused", S n);
     Client_Logout := fun _ n => (None, S n);
     step_Run := fun _ _ state n => ((ActionContinue, state), S n);
     step_Cleanup := fun _ state n => (state, S n) |}.

(** A decoder that stores the raw configuration, and a parser that accepts
    every endpoint whose host has no blank in it. *)
Definition decode_ok (_ : Config) (raws : Config) : Config * option error :=
  (raws, None).

Fixpoint has_blank (s : string) : bool :=
  match s with
  | EmptyString => false
  | String c rest => Ascii.eqb c " "%char || has_blank rest
  end.

Definition parse_simple (s : string) : net_url.URL + string :=
  if has_blank s
  then inr ("parse " +:+ s +:+ ": invalid character in host name")
  else inl {| net_url.Scheme := "https"; net_url.User := None;
              net_url.Host := substring 8 (String.length s - 12) s;
              net_url.Path := "/sdk" |}.

(** A decoder that gives up and leaves the configuration as it was, a
    configuration whose host does not parse, and a context that is cancelled
    before the first step. *)
Definition decode_fails (c : Config) (_ : Config) : Config * option error :=
  (c, Some (errorString "unknown configuration key: hostname")).


Definition cancelled : Context := {| cancelled_after := Some 0 |}.

End Examples.

(** * Properties *)

(** ** The effect monad *)

Section MonadFacts.
Context {R : Type}.

Lemma bind_unfold {A B} (m : M R A) (k : A -> M R B) (r : R) :
  bind m k r =
    (result (k (result (m r)) (remote_after (m r))),
     calls (m r) ++ calls (k (result (m r)) (remote_after (m r))),
     remote_after (k (result (m r)) (remote_after (m r)))).
Proof.
  unfold bind, result, calls, remote_after.
  destruct (m r) as [[a t1] r1]; simpl.
  destruct (k a r1) as [[b t2] r2]; reflexivity.
Qed.

Lemma calls_bind {A B} (m : M R A) (k : A -> M R B) (r : R) :
  calls (bind m k r) = calls (m r) ++ calls (k (result (m r)) (remote_after (m r))).
Proof. rewrite bind_unfold. reflexivity. Qed.

Lemma result_bind {A B} (m : M R A) (k : A -> M R B) (r : R) :
  result (bind m k r) = result (k (result (m r)) (remote_after (m r))).
Proof. rewrite bind_unfold. reflexivity. Qed.

Lemma result_mk {A} (a : A) (t : list Event) (r : R) : result (a, t, r) = a.
Proof. reflexivity. Qed.

Lemma calls_mk {A} (a : A) (t : list Event) (r : R) : calls (a, t, r) = t.
Proof. reflexivity. Qed.

Lemma remote_mk {A} (a : A) (t : list Event) (r : R) : remote_after (a, t, r) = r.
Proof. reflexivity. Qed.

End MonadFacts.

(** ** Traces *)

Lemma steps_run_app (t1 t2 : list Event) :
  steps_run (t1 ++ t2) = steps_run t1 ++ steps_run t2.
Proof. unfold steps_run. apply omap_app. Qed.

Lemma steps_run_runs (l : list Step) : steps_run (EvStepRun <$> l) = l.
Proof.
  unfold steps_run.
  induction l as [|s l IH]; [reflexivity|].
  cbn. f_equal. exact IH.
Qed.

Lemma steps_run_cleanups (l : list Step) : steps_run (EvStepCleanup <$> l) = [].
Proof. induction l as [|s l IH]; [reflexivity | exact IH]. Qed.

Lemma filter_runs (P : Event -> bool) (l : list Step) :
  (forall s, P (EvStepRun s) = false) ->
  List.filter P (EvStepRun <$> l) = [].
Proof.
  intros HP. induction l as [|s l IH]; [reflexivity|].
  simpl. rewrite HP. exact IH.
Qed.

Lemma filter_cleanups (P : Event -> bool) (l : list Step) :
  (forall s, P (EvStepCleanup s) = false) ->
  List.filter P (EvStepCleanup <$> l) = [].
Proof.
  intros HP. induction l as [|s l IH]; [reflexivity|].
  simpl. rewrite HP. exact IH.
Qed.

(** ** The runner *)

Section RunnerFacts.
Context {R : Type} (w : World R).

Lemma Run_step_unfold s ctx state r :
  Run_step w s ctx state r =
    ((step_Run w s ctx state r).1, [EvStepRun s], (step_Run w s ctx state r).2).
Proof.
  unfold Run_step, bind, emit, remote_call.
  destruct (step_Run w s ctx state r) as [a r']. reflexivity.
Qed.

Lemma Cleanup_step_unfold s state r :
  Cleanup_step w s state r =
    ((step_Cleanup w s state r).1, [EvStepCleanup s], (step_Cleanup w s state r).2).
Proof.
  unfold Cleanup_step, bind, emit, remote_call.
  destruct (step_Cleanup w s state r) as [a r']. reflexivity.
Qed.

(** The forward pass runs a prefix of the steps, in order, and leaves them
    stacked with the last one on top. *)
Lemma run_steps_prefix ctx steps :
  forall n executed state r,
  exists k,
    k <= length steps /\
    calls (run_steps w ctx n steps executed state r) = EvStepRun <$> take k steps /\
    (result (run_steps w ctx n steps executed state r)).1
      = reverse (take k steps) ++ executed.
Proof.
  induction steps as [|step rest IH]; intros n executed state r.
  - exists 0. split; [lia|]. split; reflexivity.
  - cbn [run_steps]. destruct (ctx_Err ctx n).
    + exists 0. split; [simpl; lia|]. split; reflexivity.
    + rewrite calls_bind, result_bind, Run_step_unfold.
      rewrite result_mk, calls_mk, remote_mk.
      destruct (step_Run w step ctx state r) as [[action state'] r']. cbn [fst snd].
      destruct action, (GetOk state' "error") as [v|];
        try (exists 1; split; [simpl; lia|]; split; reflexivity).
      destruct (IH (S n) (step :: executed) state' r') as (k & Hk & Hc & Hr).
      exists (S k). split; [simpl; lia|]. split.
      * rewrite Hc. reflexivity.
      * rewrite Hr. cbn [take].
        rewrite reverse_cons, <- app_assoc. reflexivity.
Qed.

(** In a run that is never cancelled and whose steps all continue without
    storing an error, the forward pass runs every step. *)
Lemma run_steps_all ctx steps :
  cancelled_after ctx = None ->
  (forall s state r,
      GetOk state "error" = None ->
      (step_Run w s ctx state r).1.1 = ActionContinue /\
      GetOk (step_Run w s ctx state r).1.2 "error" = None) ->
  forall n executed state r,
    GetOk state "error" = None ->
    calls (run_steps w ctx n steps executed state r) = EvStepRun <$> steps /\
    (result (run_steps w ctx n steps executed state r)).1
      = reverse steps ++ executed.
Proof.
  intros Hctx Hgood.
  induction steps as [|step rest IH]; intros n executed state r Hstate.
  - split; reflexivity.
  - cbn [run_steps]. unfold ctx_Err. rewrite Hctx.
    rewrite calls_bind, result_bind, Run_step_unfold.
    rewrite result_mk, calls_mk, remote_mk.
    destruct (Hgood step state r Hstate) as [Ha He].
    destruct (step_Run w step ctx state r) as [[action state'] r'].
    cbn [fst snd] in *. rewrite Ha, He.
    destruct (IH (S n) (step :: executed) state' r' He) as [Hc Hr].
    rewrite Hc, Hr. split; [reflexivity|].
    rewrite reverse_cons, <- app_assoc. reflexivity.
Qed.

(** The backward pass cleans up exactly the stacked steps, top first. *)
Lemma run_cleanup_calls executed :
  forall state r,
    calls (run_cleanup w executed state r) = EvStepCleanup <$> executed.
Proof.
  induction executed as [|step rest IH]; intros state r; [reflexivity|].
  cbn [run_cleanup]. rewrite calls_bind, Cleanup_step_unfold.
  rewrite result_mk, calls_mk, remote_mk, IH. reflexivity.
Qed.

Lemma Run_unfold runner ctx state r :
  Run w runner ctx state r =
    bind (run_steps w ctx 0 (Steps runner) [] state)
         (fun x => run_cleanup w x.1 x.2) r.
Proof.
  unfold Run, bind.
  destruct (run_steps w ctx 0 (Steps runner) [] state r) as [[[ex st] t] r1].
  reflexivity.
Qed.

(** A run is a prefix of the steps in order, then their cleanups in
    reverse order. *)
Lemma Run_calls runner ctx state r :
  exists k,
    k <= length (Steps runner) /\
    calls (Run w runner ctx state r)
      = (EvStepRun <$> take k (Steps runner))
        ++ (EvStepCleanup <$> reverse (take k (Steps runner))).
Proof.
  rewrite Run_unfold, calls_bind.
  destruct (run_steps_prefix ctx (Steps runner) 0 [] state r) as (k & Hk & Hc & Hr).
  exists k. split; [exact Hk|].
  rewrite run_cleanup_calls, Hc, Hr, app_nil_r. reflexivity.
Qed.

Lemma Run_calls_all runner ctx state r :
  cancelled_after ctx = None ->
  (forall s state r,
      GetOk state "error" = None ->
      (step_Run w s ctx state r).1.1 = ActionContinue /\
      GetOk (step_Run w s ctx state r).1.2 "error" = None) ->
  GetOk state "error" = None ->
  calls (Run w runner ctx state r)
    = (EvStepRun <$> Steps runner) ++ (EvStepCleanup <$> reverse (Steps runner)).
Proof.
  intros Hctx Hgood Hstate. rewrite Run_unfold, calls_bind.
  destruct (run_steps_all ctx (Steps runner) Hctx Hgood 0 [] state r Hstate)
    as [Hc Hr].
  rewrite run_cleanup_calls, Hc, Hr, app_nil_r. reflexivity.
Qed.

Lemma Run_steps_run runner ctx state r :
  steps_run (calls (Run w runner ctx state r)) `prefix_of` Steps runner.
Proof.
  destruct (Run_calls runner ctx state r) as (k & _ & ->).
  rewrite steps_run_app, steps_run_runs, steps_run_cleanups, app_nil_r.
  apply prefix_take.
Qed.

Lemma Run_filter (P : Event -> bool) runner ctx state r :
  (forall s, P (EvStepRun s) = false) ->
  (forall s, P (EvStepCleanup s) = false) ->
  List.filter P (calls (Run w runner ctx state r)) = [].
Proof.
  intros H1 H2. destruct (Run_calls runner ctx state r) as (k & _ & ->).
  rewrite List.filter_app, filter_runs, filter_cleanups by assumption.
  reflexivity.
Qed.

(** The runner never looks at the logout of the world. *)
Lemma Run_with_Logout logout runner ctx state r :
  Run (with_Logout w logout) runner ctx state r = Run w runner ctx state r.
Proof. reflexivity. Qed.

End RunnerFacts.

(** ** The body of [PostProcess], path by path *)

Section PostProcessFacts.
Variables vspherepost_BuilderId vsphere_BuilderId : string.
Context {R : Type} (w : World R).

Local Abbreviation listed := (builtins vspherepost_BuilderId vsphere_BuilderId).
Local Abbreviation run := (PostProcess vspherepost_BuilderId vsphere_BuilderId w).

Lemma builtins_is_Some (id : string) :
  is_Some (listed !! id) <->
  id = vspherepost_BuilderId \/ id = BuilderIdESX \/ id = vsphere_BuilderId \/
  id = "packer.post-processor.artifice".
Proof.
  unfold builtins.
  rewrite !lookup_insert_is_Some', lookup_empty, is_Some_alt.
  intuition congruence.
Qed.

Lemma builtins_None (id : string) :
  listed !! id = None <->
  id <> vspherepost_BuilderId /\ id <> BuilderIdESX /\ id <> vsphere_BuilderId /\
  id <> "packer.post-processor.artifice".
Proof.
  rewrite eq_None_not_Some, builtins_is_Some. intuition congruence.
Qed.

Lemma PostProcess_unsupported p ctx ui artifact r :
  listed !! BuilderId artifact = None ->
  run p ctx ui artifact r
    = (Return None false false (Some (unsupported_artifact (BuilderId artifact))),
       [], r).
Proof. intros H. unfold PostProcess. rewrite H. reflexivity. Qed.

Lemma PostProcess_conflict p ctx ui artifact r :
  is_Some (listed !! BuilderId artifact) ->
  conflict_of artifact = true ->
  run p ctx ui artifact r
    = (Return None false false (Some conflicting_export), [], r).
Proof.
  intros [v Hv] Hc. unfold PostProcess. rewrite Hv.
  unfold conflict_of in Hc. rewrite Hc. reflexivity.
Qed.

Lemma PostProcess_refused p ctx ui artifact r err r1 :
  is_Some (listed !! BuilderId artifact) ->
  conflict_of artifact = false ->
  NewClient w (url p) (Insecure (config p)) r = (inr err, r1) ->
  run p ctx ui artifact r
    = (Return None false false (Some (connect_failed err)), settling p ui, r1).
Proof.
  intros [v Hv] Hc Hn. unfold PostProcess. rewrite Hv.
  unfold conflict_of in Hc. rewrite Hc.
  unfold bind, Ui_Message, time_Sleep, govmomi_NewClient, emit, remote_call, bind.
  rewrite Hn. reflexivity.
Qed.

(** After a successful connection: the run, the deferred logout, and the
    result read off the state bag. *)
Lemma PostProcess_connected p ctx ui artifact r c r1 :
  is_Some (listed !! BuilderId artifact) ->
  conflict_of artifact = false ->
  NewClient w (url p) (Insecure (config p)) r = (inl c, r1) ->
  run p ctx ui artifact r
    = (match GetOk (result (run_of w p ctx ui artifact c r1)) "error" with
       | Some (VError rawErr) => Return None false false (Some rawErr)
       | Some _ => Panic
       | None => Return (Some artifact) true true None
       end,
       settling p ui ++ calls (run_of w p ctx ui artifact c r1) ++ [EvLogout c],
       (Client_Logout w c (remote_after (run_of w p ctx ui artifact c r1))).2).
Proof.
  intros [v Hv] Hc Hn. unfold PostProcess. rewrite Hv.
  unfold conflict_of in Hc. rewrite Hc.
  unfold bind at 1 2 3, Ui_Message, time_Sleep, govmomi_NewClient, emit,
    remote_call, bind at 1.
  rewrite Hn. unfold defer.
  change (Run w _ ctx _) with (run_of w p ctx ui artifact c).
  rewrite bind_unfold. rewrite (bind_unfold (run_of w p ctx ui artifact c)).
  rewrite !result_mk, !calls_mk, !remote_mk.
  destruct (run_of w p ctx ui artifact c r1) as [[state t] r2].
  rewrite !result_mk, !calls_mk, !remote_mk.
  unfold Logout, bind, emit, remote_call, ret.
  destruct (GetOk state "error") as [[]|];
    unfold result, calls, remote_after; cbn [fst snd];
    destruct (Client_Logout w c r2) as [lo r3]; cbn [fst snd app];
    rewrite ?app_nil_r; reflexivity.
Qed.

End PostProcessFacts.

(** ** The gates, read as conditions on the artifact *)

Lemma iface_eq_string_true (v : Value) (lit : string) :
  iface_eq_string v lit = true <-> v = VString lit.
Proof.
  destruct v; simpl; try (split; [discriminate | congruence]).
  rewrite String.eqb_eq. split; congruence.
Qed.

Lemma iface_eq_string_false (v : Value) (lit : string) :
  iface_eq_string v lit = false <-> v <> VString lit.
Proof.
  rewrite <- iface_eq_string_true. destruct (iface_eq_string v lit); split; congruence.
Qed.

Lemma export_conflict_true (f k s : Value) :
  export_conflict f k s = true <->
  f <> VString "" /\ k <> VString "true" /\ s = VString "false".
Proof.
  unfold export_conflict.
  rewrite !andb_true_iff, !negb_true_iff, !iface_eq_string_false, iface_eq_string_true.
  tauto.
Qed.

Lemma export_conflict_false (f k s : Value) :
  export_conflict f k s = false <->
  ~ (f <> VString "" /\ k <> VString "true" /\ s = VString "false").
Proof.
  rewrite <- export_conflict_true. destruct (export_conflict f k s); split; congruence.
Qed.

Lemma not_accepted (vspherepost_BuilderId vsphere_BuilderId : string) (artifact : Artifact) :
  ~ accepted vspherepost_BuilderId vsphere_BuilderId artifact ->
  builtins vspherepost_BuilderId vsphere_BuilderId !! BuilderId artifact = None \/
  (is_Some (builtins vspherepost_BuilderId vsphere_BuilderId !! BuilderId artifact) /\
   conflict_of artifact = true).
Proof.
  unfold accepted. intros H.
  destruct (builtins vspherepost_BuilderId vsphere_BuilderId !! BuilderId artifact)
    as [v|] eqn:Hb; [|left; reflexivity].
  right. split; [eauto|]. destruct (conflict_of artifact); [reflexivity|].
  exfalso. apply H. split; eauto.
Qed.

(** A rejected artifact causes no call at all. *)
Lemma PostProcess_rejected_calls
    (vspherepost_BuilderId vsphere_BuilderId : string) {R : Type} (w : World R)
    (p : PostProcessor) (ctx : Context) (ui : Ui) (artifact : Artifact) (r : R) :
  ~ accepted vspherepost_BuilderId vsphere_BuilderId artifact ->
  calls (PostProcess vspherepost_BuilderId vsphere_BuilderId w p ctx ui artifact r) = [] /\
  remote_after (PostProcess vspherepost_BuilderId vsphere_BuilderId w p ctx ui artifact r) = r.
Proof.
  intros H. destruct (not_accepted _ _ _ H) as [Hb|[Hb Hc]].
  - rewrite PostProcess_unsupported by exact Hb. split; reflexivity.
  - rewrite PostProcess_conflict by assumption. split; reflexivity.
Qed.

(** An accepted artifact causes the message, the sleep and the connection
    attempt, in that order, and neither sleeps nor connects again. *)
Lemma PostProcess_accepted_calls
    (vspherepost_BuilderId vsphere_BuilderId : string) {R : Type} (w : World R)
    (p : PostProcessor) (ctx : Context) (ui : Ui) (artifact : Artifact) (r : R) :
  accepted vspherepost_BuilderId vsphere_BuilderId artifact ->
  exists rest,
    calls (PostProcess vspherepost_BuilderId vsphere_BuilderId w p ctx ui artifact r)
      = settling p ui ++ rest /\
    List.filter is_sleep rest = [] /\
    List.filter is_new_client rest = [].
Proof.
  intros [Hb Hc].
  destruct (NewClient w (url p) (Insecure (config p)) r) as [[c|e] r1] eqn:Hn.
  - rewrite (PostProcess_connected _ _ _ _ _ _ _ _ _ _ Hb Hc Hn), calls_mk.
    eexists. split; [reflexivity|].
    unfold run_of. rewrite !List.filter_app, !Run_filter by reflexivity.
    split; reflexivity.
  - rewrite (PostProcess_refused _ _ _ _ _ _ _ _ _ _ Hb Hc Hn), calls_mk.
    exists []. rewrite app_nil_r. repeat split.
Qed.

(** The steps [PostProcess] gets run are an initial part of its step list. *)
Lemma PostProcess_steps_run
    (vspherepost_BuilderId vsphere_BuilderId : string) {R : Type} (w : World R)
    (p : PostProcessor) (ctx : Context) (ui : Ui) (artifact : Artifact) (r : R) :
  steps_run (calls (PostProcess vspherepost_BuilderId vsphere_BuilderId w
                      p ctx ui artifact r))
    `prefix_of` steps_of p artifact.
Proof.
  destruct (builtins vspherepost_BuilderId vsphere_BuilderId !! BuilderId artifact)
    as [v|] eqn:Hb.
  - destruct (conflict_of artifact) eqn:Hc.
    + rewrite PostProcess_conflict by eauto. apply prefix_nil.
    + destruct (NewClient w (url p) (Insecure (config p)) r) as [[c|e] r1] eqn:Hn.
      * rewrite (PostProcess_connected _ _ _ _ _ _ _ _ _ _ (mk_is_Some _ _ Hb) Hc Hn).
        rewrite calls_mk, !steps_run_app. cbn [settling steps_run omap app].
        change (omap _ (calls ?x)) with (steps_run (calls x)).
        rewrite app_nil_r. unfold run_of.
        apply (Run_steps_run w
                 (NewRunnerWithPauseFn (steps_of p artifact) (PackerConfig_ (config p))
                    ui (seeded ui c))).
      * rewrite (PostProcess_refused _ _ _ _ _ _ _ _ _ _ (mk_is_Some _ _ Hb) Hc Hn).
        apply prefix_nil.
  - rewrite PostProcess_unsupported by exact Hb. apply prefix_nil.
Qed.

(** ** The required fields of [Configure] *)

Lemma check_required_omap (c : Config) (order : list string) :
  forall errs, check_required c order errs = errs ++ omap (missing_error c) order.
Proof.
  unfold check_required.
  induction order as [|key order IH]; intros errs; simpl.
  - rewrite app_nil_r. reflexivity.
  - rewrite IH. unfold check_key, missing_error, MultiErrorAppend.
    destruct (vc c !! key) as [v|]; [destruct (String.eqb v "")|];
      rewrite <- ?app_assoc; reflexivity.
Qed.

Lemma vc_lookup (c : Config) :
  vc c !! "host" = Some (Host c) /\
  vc c !! "username" = Some (Username c) /\
  vc c !! "password" = Some (Password c).
Proof. repeat split. Qed.

(** Whatever the order of the visit, the loop gathers the error of a key
    exactly when the field behind the key is empty. *)
Lemma check_required_reports (c : Config) (order : list string) :
  order ≡ₚ vc_keys ->
  (must_be_set "host" ∈ check_required c order [] <-> Host c = "") /\
  (must_be_set "username" ∈ check_required c order [] <-> Username c = "") /\
  (must_be_set "password" ∈ check_required c order [] <-> Password c = "").
Proof.
  intros Hperm. rewrite check_required_omap, app_nil_l.
  rewrite (omap_Permutation _ _ _ Hperm).
  destruct (vc_lookup c) as (Hh & Hu & Hp).
  unfold vc_keys. cbn [omap list_omap]. unfold missing_error.
  rewrite Hh, Hu, Hp.
  destruct (String.eqb_spec (Host c) ""), (String.eqb_spec (Username c) ""),
    (String.eqb_spec (Password c) "");
    rewrite ?elem_of_cons, ?elem_of_nil; unfold must_be_set; cbn;
    intuition (try discriminate; try congruence).
Qed.

Lemma must_be_set_not_endpoint (key err : string) :
  key ∈ vc_keys -> must_be_set key <> invalid_endpoint err.
Proof.
  unfold vc_keys. rewrite !elem_of_cons, elem_of_nil.
  intros [->|[->|[->|[]]]]; discriminate.
Qed.

(** * The claims *)

(** C1.  [PostProcess] hands back one of two shapes of results and nothing in
    between: the artifact it was given with both booleans true and no error,
    or no artifact, both booleans false and an error.  An unlisted builder,
    an export conflict, a refused connection and an error left in the state
    bag by the run each give the second shape with that very error; a run
    that leaves no error in the state bag gives the first.  The only way
    not to return is the failed type assertion on a state bag whose "error"
    entry is not an error value. *)
Theorem PostProcess_two_outcomes
    (vspherepost_BuilderId vsphere_BuilderId : string) {R : Type} (w : World R)
    (p : PostProcessor) (ctx : Context) (ui : Ui) (artifact : Artifact) (r : R) :
  (forall a keep force err,
      result (PostProcess vspherepost_BuilderId vsphere_BuilderId w p ctx ui artifact r)
        = Return a keep force err ->
      (a = Some artifact /\ keep = true /\ force = true /\ err = None) \/
      (a = None /\ keep = false /\ force = false /\ err <> None)) /\
  (builtins vspherepost_BuilderId vsphere_BuilderId !! BuilderId artifact = None ->
   result (PostProcess vspherepost_BuilderId vsphere_BuilderId w p ctx ui artifact r)
     = Return None false false (Some (unsupported_artifact (BuilderId artifact)))) /\
  (is_Some (builtins vspherepost_BuilderId vsphere_BuilderId !! BuilderId artifact) ->
   conflict_of artifact = true ->
   result (PostProcess vspherepost_BuilderId vsphere_BuilderId w p ctx ui artifact r)
     = Return None false false (Some conflicting_export)) /\
  (forall err r1,
      accepted vspherepost_BuilderId vsphere_BuilderId artifact ->
      NewClient w (url p) (Insecure (config p)) r = (inr err, r1) ->
      result (PostProcess vspherepost_BuilderId vsphere_BuilderId w p ctx ui artifact r)
        = Return None false false (Some (connect_failed err))) /\
  (forall c r1,
      accepted vspherepost_BuilderId vsphere_BuilderId artifact ->
      NewClient w (url p) (Insecure (config p)) r = (inl c, r1) ->
      (GetOk (result (run_of w p ctx ui artifact c r1)) "error" = None ->
       result (PostProcess vspherepost_BuilderId vsphere_BuilderId w p ctx ui artifact r)
         = Return (Some artifact) true true None) /\
      (forall e,
          GetOk (result (run_of w p ctx ui artifact c r1)) "error" = Some (VError e) ->
          result (PostProcess vspherepost_BuilderId vsphere_BuilderId w p ctx ui artifact r)
            = Return None false false (Some e))) /\
  (result (PostProcess vspherepost_BuilderId vsphere_BuilderId w p ctx ui artifact r)
     = Panic ->
   exists c r1 v,
     NewClient w (url p) (Insecure (config p)) r = (inl c, r1) /\
     GetOk (result (run_of w p ctx ui artifact c r1)) "error" = Some v /\
     forall e, v <> VError e).
Proof.
  split; [|split; [|split; [|split; [|split]]]].
  - intros a keep force err.
    destruct (builtins vspherepost_BuilderId vsphere_BuilderId !! BuilderId artifact)
      as [v|] eqn:Hb.
    + destruct (conflict_of artifact) eqn:Hc.
      * rewrite PostProcess_conflict by eauto. rewrite result_mk.
        intros [= <- <- <- <-]. right. repeat split; discriminate.
      * destruct (NewClient w (url p) (Insecure (config p)) r) as [[c|e] r1] eqn:Hn.
        -- rewrite (PostProcess_connected _ _ _ _ _ _ _ _ _ _ (mk_is_Some _ _ Hb) Hc Hn).
           rewrite result_mk.
           destruct (GetOk _ "error") as [[]|]; try discriminate.
           ++ intros [= <- <- <- <-]. right. repeat split; discriminate.
           ++ intros [= <- <- <- <-]. left. repeat split.
        -- rewrite (PostProcess_refused _ _ _ _ _ _ _ _ _ _ (mk_is_Some _ _ Hb) Hc Hn).
           rewrite result_mk.
           intros [= <- <- <- <-]. right. repeat split; discriminate.
    + rewrite PostProcess_unsupported by exact Hb. rewrite result_mk.
      intros [= <- <- <- <-]. right. repeat split; discriminate.
  - intros Hb. rewrite PostProcess_unsupported by exact Hb. reflexivity.
  - intros Hb Hc. rewrite PostProcess_conflict by assumption. reflexivity.
  - intros err r1 [Hb Hc] Hn.
    rewrite (PostProcess_refused _ _ _ _ _ _ _ _ _ _ Hb Hc Hn). reflexivity.
  - intros c r1 [Hb Hc] Hn.
    rewrite (PostProcess_connected _ _ _ _ _ _ _ _ _ _ Hb Hc Hn), result_mk.
    split.
    + intros ->. reflexivity.
    + intros e ->. reflexivity.
  - destruct (builtins vspherepost_BuilderId vsphere_BuilderId !! BuilderId artifact)
      as [v|] eqn:Hb.
    + destruct (conflict_of artifact) eqn:Hc.
      * rewrite PostProcess_conflict by eauto. discriminate.
      * destruct (NewClient w (url p) (Insecure (config p)) r) as [[c|e] r1] eqn:Hn.
        -- rewrite (PostProcess_connected _ _ _ _ _ _ _ _ _ _ (mk_is_Some _ _ Hb) Hc Hn).
           rewrite result_mk. intros Hp. exists c, r1.
           destruct (GetOk _ "error") as [x|]; [|discriminate].
           exists x. split; [reflexivity|]. split; [reflexivity|].
           intros e ->. discriminate.
        -- rewrite (PostProcess_refused _ _ _ _ _ _ _ _ _ _ (mk_is_Some _ _ Hb) Hc Hn).
           discriminate.
    + rewrite PostProcess_unsupported by exact Hb. discriminate.
Qed.

Lemma PostProcess_two_outcomes_witness :
  result (PostProcess Examples.vspherepost_id Examples.vsphere_id
            (Examples.good_world false) Examples.p0 Examples.never Examples.ui0
            Examples.plain_artifact 0)
    = Return (Some Examples.plain_artifact) true true None /\
  result (PostProcess Examples.vspherepost_id Examples.vsphere_id
            (Examples.failing_world CreateSnapshot) Examples.p0 Examples.never
            Examples.ui0 Examples.plain_artifact 0)
    = Return None false false (Some (errorString "step failed")).
Proof.
  split.
  - destruct (PostProcess_two_outcomes Examples.vspherepost_id Examples.vsphere_id
                (Examples.good_world false) Examples.p0 Examples.never Examples.ui0
                Examples.plain_artifact 0) as (_ & _ & _ & _ & H & _).
    destruct (H Examples.client0 1) as [Hok _].
    + split; [eexists; vm_compute; reflexivity | reflexivity].
    + reflexivity.
    + apply Hok. vm_compute. reflexivity.
  - destruct (PostProcess_two_outcomes Examples.vspherepost_id Examples.vsphere_id
                (Examples.failing_world CreateSnapshot) Examples.p0 Examples.never
                Examples.ui0 Examples.plain_artifact 0) as (_ & _ & _ & _ & H & _).
    destruct (H Examples.client0 1) as [_ Herr].
    + split; [eexists; vm_compute; reflexivity | reflexivity].
    + reflexivity.
    + apply Herr. vm_compute. reflexivity.
Defined.

(** C2.  An artifact whose builder is none of the four listed ones is turned
    down with the unsupported-artifact error, whose text contains the
    builder's identity; nothing was called on the way — no message, no
    settling delay, no connection — and the remote side is untouched. *)
Theorem PostProcess_rejects_unlisted_builder
    (vspherepost_BuilderId vsphere_BuilderId : string) {R : Type} (w : World R)
    (p : PostProcessor) (ctx : Context) (ui : Ui) (artifact : Artifact) (r : R) :
  BuilderId artifact <> vspherepost_BuilderId ->
  BuilderId artifact <> BuilderIdESX ->
  BuilderId artifact <> vsphere_BuilderId ->
  BuilderId artifact <> "packer.post-processor.artifice" ->
  PostProcess vspherepost_BuilderId vsphere_BuilderId w p ctx ui artifact r
    = (Return None false false (Some (unsupported_artifact (BuilderId artifact))),
       [], r) /\
  (exists before after,
      unsupported_artifact (BuilderId artifact)
        = errorString (before +:+ BuilderId artifact +:+ after)) /\
  List.filter is_sleep
    (calls (PostProcess vspherepost_BuilderId vsphere_BuilderId w p ctx ui artifact r))
    = [] /\
  List.filter is_new_client
    (calls (PostProcess vspherepost_BuilderId vsphere_BuilderId w p ctx ui artifact r))
    = [].
Proof.
  intros H1 H2 H3 H4.
  assert (Hb : builtins vspherepost_BuilderId vsphere_BuilderId !! BuilderId artifact
               = None) by (apply builtins_None; auto).
  rewrite PostProcess_unsupported by exact Hb. rewrite calls_mk.
  split; [reflexivity|]. split; [|split; reflexivity].
  exists ("The Packer vSphere Template post-processor can only take an artifact " +:+
          "from the VMware-iso builder, built on ESXi (i.e. remote) or an artifact " +:+
          "from the vSphere post-processor. Artifact type "),
         " does not fit this requirement".
  reflexivity.
Qed.

Lemma PostProcess_rejects_unlisted_builder_witness :
  PostProcess Examples.vspherepost_id Examples.vsphere_id Examples.unreachable_world
    Examples.p0 Examples.never Examples.ui0 Examples.foreign_artifact 0
    = (Return None false false (Some (unsupported_artifact "mitchellh.virtualbox")),
       [], 0).
Proof.
  apply (PostProcess_rejects_unlisted_builder Examples.vspherepost_id
           Examples.vsphere_id Examples.unreachable_world Examples.p0 Examples.never
           Examples.ui0 Examples.foreign_artifact 0); discriminate.
Defined.

(** C3 (as amended).  For an artifact of a listed builder the export gate
    closes exactly when the export format is anything but the empty string
    (a missing value counts), keep-registered is anything but the string
    "true", and skip-export is the string "false".  A closed gate returns the
    conflicting-export error before anything is called; an open gate lets the
    call go on to the settling delay and the connection. *)
Theorem export_gate_exact
    (vspherepost_BuilderId vsphere_BuilderId : string) {R : Type} (w : World R)
    (p : PostProcessor) (ctx : Context) (ui : Ui) (artifact : Artifact) (r : R) :
  is_Some (builtins vspherepost_BuilderId vsphere_BuilderId !! BuilderId artifact) ->
  (State artifact ArtifactConfFormat <> VString "" /\
   State artifact ArtifactConfKeepRegistered <> VString "true" /\
   State artifact ArtifactConfSkipExport = VString "false" ->
   PostProcess vspherepost_BuilderId vsphere_BuilderId w p ctx ui artifact r
     = (Return None false false (Some conflicting_export), [], r)) /\
  (~ (State artifact ArtifactConfFormat <> VString "" /\
      State artifact ArtifactConfKeepRegistered <> VString "true" /\
      State artifact ArtifactConfSkipExport = VString "false") ->
   exists rest,
     calls (PostProcess vspherepost_BuilderId vsphere_BuilderId w p ctx ui artifact r)
       = settling p ui ++ rest).
Proof.
  intros Hb. split.
  - intros Hc. apply PostProcess_conflict; [exact Hb|].
    apply export_conflict_true. exact Hc.
  - intros Hc.
    destruct (PostProcess_accepted_calls vspherepost_BuilderId vsphere_BuilderId
                w p ctx ui artifact r) as (rest & Hcalls & _).
    + split; [exact Hb|]. apply export_conflict_false. exact Hc.
    + exists rest. exact Hcalls.
Qed.

Lemma export_gate_exact_witness :
  PostProcess Examples.vspherepost_id Examples.vsphere_id Examples.unreachable_world
    Examples.p0 Examples.never Examples.ui0
    (Examples.esx_artifact (VString "ovf") (VString "false") (VString "false")) 0
    = (Return None false false (Some conflicting_export), [], 0).
Proof.
  apply (export_gate_exact Examples.vspherepost_id Examples.vsphere_id
           Examples.unreachable_world Examples.p0 Examples.never Examples.ui0
           (Examples.esx_artifact (VString "ovf") (VString "false") (VString "false")) 0).
  - eexists. vm_compute. reflexivity.
  - repeat split; discriminate.
Defined.

(** C3 (as stated) fails: an ESX artifact with no export format at all (the
    lookup yields nil, which is not a non-empty string), no keep-registered
    flag and skip-export "false" is still turned down with the
    conflicting-export error. *)
Lemma export_gate_missing_format_counterexample :
  is_Some (builtins Examples.vspherepost_id Examples.vsphere_id
             !! BuilderId (Examples.esx_artifact VNil VNil (VString "false"))) /\
  ~ (exists s, State (Examples.esx_artifact VNil VNil (VString "false"))
                 ArtifactConfFormat = VString s /\ s <> "") /\
  PostProcess Examples.vspherepost_id Examples.vsphere_id Examples.unreachable_world
    Examples.p0 Examples.never Examples.ui0
    (Examples.esx_artifact VNil VNil (VString "false")) 0
    = (Return None false false (Some conflicting_export), [], 0).
Proof.
  split; [eexists; vm_compute; reflexivity|]. split.
  - intros (s & Hs & _). discriminate Hs.
  - vm_compute. reflexivity.
Qed.

(** C10.  Whatever the export format and keep-registered say, an artifact
    whose skip-export metadata is not the string "false" — missing, empty,
    any other string, a value of another type — never closes the export
    gate: a listed builder's artifact goes on to the settling delay, an
    unlisted one gets the unsupported-artifact error. *)
Theorem export_gate_needs_literal_false
    (vspherepost_BuilderId vsphere_BuilderId : string) {R : Type} (w : World R)
    (p : PostProcessor) (ctx : Context) (ui : Ui) (artifact : Artifact) (r : R) :
  State artifact ArtifactConfSkipExport <> VString "false" ->
  conflict_of artifact = false /\
  (is_Some (builtins vspherepost_BuilderId vsphere_BuilderId !! BuilderId artifact) ->
   exists rest,
     calls (PostProcess vspherepost_BuilderId vsphere_BuilderId w p ctx ui artifact r)
       = settling p ui ++ rest) /\
  (builtins vspherepost_BuilderId vsphere_BuilderId !! BuilderId artifact = None ->
   result (PostProcess vspherepost_BuilderId vsphere_BuilderId w p ctx ui artifact r)
     = Return None false false (Some (unsupported_artifact (BuilderId artifact)))).
Proof.
  intros Hs.
  assert (Hc : conflict_of artifact = false).
  { apply export_conflict_false. intros (_ & _ & H). contradiction. }
  split; [exact Hc|]. split.
  - intros Hb.
    destruct (PostProcess_accepted_calls vspherepost_BuilderId vsphere_BuilderId
                w p ctx ui artifact r) as (rest & Hcalls & _); [split; assumption|].
    exists rest. exact Hcalls.
  - intros Hb. rewrite PostProcess_unsupported by exact Hb. reflexivity.
Qed.

Lemma export_gate_needs_literal_false_witness :
  (exists rest,
      calls (PostProcess Examples.vspherepost_id Examples.vsphere_id
               Examples.unreachable_world Examples.p0 Examples.never Examples.ui0
               (Examples.esx_artifact (VString "ovf") (VString "false") (VString "")) 0)
        = settling Examples.p0 Examples.ui0 ++ rest) /\
  (exists rest,
      calls (PostProcess Examples.vspherepost_id Examples.vsphere_id
               Examples.unreachable_world Examples.p0 Examples.never Examples.ui0
               (Examples.esx_artifact (VString "ovf") (VString "false") VNil) 0)
        = settling Examples.p0 Examples.ui0 ++ rest).
Proof.
  split.
  - apply (export_gate_needs_literal_false Examples.vspherepost_id Examples.vsphere_id
             Examples.unreachable_world Examples.p0 Examples.never Examples.ui0
             (Examples.esx_artifact (VString "ovf") (VString "false") (VString "")) 0).
    + discriminate.
    + eexists. vm_compute. reflexivity.
  - apply (export_gate_needs_literal_false Examples.vspherepost_id Examples.vsphere_id
             Examples.unreachable_world Examples.p0 Examples.never Examples.ui0
             (Examples.esx_artifact (VString "ovf") (VString "false") VNil) 0).
    + discriminate.
    + eexists. vm_compute. reflexivity.
Defined.

(** C6.  An artifact that passes validation makes [PostProcess] announce the
    wait, sleep ten seconds (ten times 1 000 000 000 ns) and only then open
    the connection; these are its first three calls, so every step runs
    after them, and no second sleep or connection follows.  An artifact that
    fails validation causes no sleep. *)
Theorem settling_delay_before_connection
    (vspherepost_BuilderId vsphere_BuilderId : string) {R : Type} (w : World R)
    (p : PostProcessor) (ctx : Context) (ui : Ui) (artifact : Artifact) (r : R) :
  (accepted vspherepost_BuilderId vsphere_BuilderId artifact ->
   exists rest,
     calls (PostProcess vspherepost_BuilderId vsphere_BuilderId w p ctx ui artifact r)
       = EvMessage ui "Waiting 10s for VMware vSphere to start"
         :: EvSleep (10 * time_Second)
         :: EvNewClient (url p) (Insecure (config p))
         :: rest /\
     List.filter is_sleep rest = [] /\
     List.filter is_new_client rest = [] /\
     steps_run (calls (PostProcess vspherepost_BuilderId vsphere_BuilderId w
                         p ctx ui artifact r))
       = steps_run rest) /\
  (~ accepted vspherepost_BuilderId vsphere_BuilderId artifact ->
   List.filter is_sleep
     (calls (PostProcess vspherepost_BuilderId vsphere_BuilderId w p ctx ui artifact r))
     = []) /\
  time_Second = 1000000000%Z.
Proof.
  split; [|split; [|reflexivity]].
  - intros Ha.
    destruct (PostProcess_accepted_calls vspherepost_BuilderId vsphere_BuilderId
                w p ctx ui artifact r Ha) as (rest & Hcalls & Hs & Hn).
    exists rest. rewrite Hcalls. repeat split; assumption.
  - intros Ha.
    destruct (PostProcess_rejected_calls vspherepost_BuilderId vsphere_BuilderId
                w p ctx ui artifact r Ha) as [-> _].
    reflexivity.
Qed.

Lemma settling_delay_before_connection_witness :
  (exists rest,
      calls (PostProcess Examples.vspherepost_id Examples.vsphere_id
               (Examples.good_world false) Examples.p0 Examples.never Examples.ui0
               Examples.plain_artifact 0)
        = EvMessage Examples.ui0 "Waiting 10s for VMware vSphere to start"
          :: EvSleep 10000000000
          :: EvNewClient (url Examples.p0) true
          :: rest /\
      List.filter is_sleep rest = [] /\
      List.filter is_new_client rest = [] /\
      steps_run (calls (PostProcess Examples.vspherepost_id Examples.vsphere_id
                          (Examples.good_world false) Examples.p0 Examples.never
                          Examples.ui0 Examples.plain_artifact 0))
        = steps_run rest) /\
  List.filter is_sleep
    (calls (PostProcess Examples.vspherepost_id Examples.vsphere_id
              (Examples.good_world false) Examples.p0 Examples.never Examples.ui0
              Examples.foreign_artifact 0))
    = [].
Proof.
  split.
  - apply (settling_delay_before_connection Examples.vspherepost_id Examples.vsphere_id
             (Examples.good_world false) Examples.p0 Examples.never Examples.ui0
             Examples.plain_artifact 0).
    split; [eexists; vm_compute; reflexivity | reflexivity].
  - apply (settling_delay_before_connection Examples.vspherepost_id Examples.vsphere_id
             (Examples.good_world false) Examples.p0 Examples.never Examples.ui0
             Examples.foreign_artifact 0).
    intros [[v Hv] _]. vm_compute in Hv. discriminate Hv.
Defined.

(** C4.  The deferred logout runs exactly once, as the last call, whenever
    the connection was established — whatever the steps, the runner and the
    cancellation did afterwards — and not at all when the artifact was
    rejected or the connection refused. *)
Theorem Logout_exactly_once
    (vspherepost_BuilderId vsphere_BuilderId : string) {R : Type} (w : World R)
    (p : PostProcessor) (ctx : Context) (ui : Ui) (artifact : Artifact) (r : R) :
  (~ accepted vspherepost_BuilderId vsphere_BuilderId artifact ->
   List.filter is_logout
     (calls (PostProcess vspherepost_BuilderId vsphere_BuilderId w p ctx ui artifact r))
     = []) /\
  (forall err r1,
      accepted vspherepost_BuilderId vsphere_BuilderId artifact ->
      NewClient w (url p) (Insecure (config p)) r = (inr err, r1) ->
      List.filter is_logout
        (calls (PostProcess vspherepost_BuilderId vsphere_BuilderId w p ctx ui artifact r))
        = []) /\
  (forall c r1,
      accepted vspherepost_BuilderId vsphere_BuilderId artifact ->
      NewClient w (url p) (Insecure (config p)) r = (inl c, r1) ->
      List.filter is_logout
        (calls (PostProcess vspherepost_BuilderId vsphere_BuilderId w p ctx ui artifact r))
        = [EvLogout c] /\
      last (calls (PostProcess vspherepost_BuilderId vsphere_BuilderId w
                     p ctx ui artifact r))
        = Some (EvLogout c)).
Proof.
  split; [|split].
  - intros Ha.
    destruct (PostProcess_rejected_calls vspherepost_BuilderId vsphere_BuilderId
                w p ctx ui artifact r Ha) as [-> _].
    reflexivity.
  - intros err r1 [Hb Hc] Hn.
    rewrite (PostProcess_refused _ _ _ _ _ _ _ _ _ _ Hb Hc Hn). reflexivity.
  - intros c r1 [Hb Hc] Hn.
    rewrite (PostProcess_connected _ _ _ _ _ _ _ _ _ _ Hb Hc Hn), calls_mk.
    split.
    + unfold run_of. rewrite !List.filter_app, Run_filter by reflexivity.
      reflexivity.
    + rewrite !app_assoc. apply last_snoc.
Qed.

Lemma Logout_exactly_once_witness :
  List.filter is_logout
    (calls (PostProcess Examples.vspherepost_id Examples.vsphere_id
              (Examples.failing_world CreateFolder) Examples.p0 Examples.never
              Examples.ui0 Examples.plain_artifact 0))
    = [EvLogout Examples.client0] /\
  List.filter is_logout
    (calls (PostProcess Examples.vspherepost_id Examples.vsphere_id
              Examples.unreachable_world Examples.p0 Examples.never
              Examples.ui0 Examples.plain_artifact 0))
    = [] /\
  List.filter is_logout
    (calls (PostProcess Examples.vspherepost_id Examples.vsphere_id
              (Examples.good_world false) Examples.p0 Examples.never
              Examples.ui0 Examples.foreign_artifact 0))
    = [].
Proof.
  split; [|split].
  - destruct (Logout_exactly_once Examples.vspherepost_id Examples.vsphere_id
                (Examples.failing_world CreateFolder) Examples.p0 Examples.never
                Examples.ui0 Examples.plain_artifact 0) as (_ & _ & H).
    apply (H Examples.client0 1).
    + split; [eexists; vm_compute; reflexivity | reflexivity].
    + reflexivity.
  - destruct (Logout_exactly_once Examples.vspherepost_id Examples.vsphere_id
                Examples.unreachable_world Examples.p0 Examples.never
                Examples.ui0 Examples.plain_artifact 0) as (_ & H & _).
    apply (H "dial tcp: connection refused" 1).
    + split; [eexists; vm_compute; reflexivity | reflexivity].
    + reflexivity.
  - destruct (Logout_exactly_once Examples.vspherepost_id Examples.vsphere_id
                (Examples.good_world false) Examples.p0 Examples.never
                Examples.ui0 Examples.foreign_artifact 0) as (H & _).
    apply H. intros [[v Hv] _]. vm_compute in Hv. discriminate Hv.
Defined.

(** C5.  [PostProcess] builds the step list ChooseDatacenter, CreateFolder,
    CreateSnapshot, MarkAsTemplate — four steps, in this order — and hands it
    to the runner.  Whatever happens, the steps that get run are an initial
    part of that list in the list's order: none is skipped, repeated or
    moved.  When the connection is established, the context is never
    cancelled and every step started without an error continues and stores
    none, all four run. *)
Theorem steps_in_fixed_order
    (vspherepost_BuilderId vsphere_BuilderId : string) {R : Type} (w : World R)
    (p : PostProcessor) (ctx : Context) (ui : Ui) (artifact : Artifact) (r : R) :
  steps_of p artifact
    = [ stepChooseDatacenter (Datacenter (config p));
        stepCreateFolder (Folder (config p));
        NewStepCreateSnapshot artifact p;
        NewStepMarkAsTemplate artifact p ] /\
  kind_of <$> steps_of p artifact
    = [ChooseDatacenter; CreateFolder; CreateSnapshot; MarkAsTemplate] /\
  steps_run (calls (PostProcess vspherepost_BuilderId vsphere_BuilderId w
                      p ctx ui artifact r))
    `prefix_of` steps_of p artifact /\
  kinds_run (calls (PostProcess vspherepost_BuilderId vsphere_BuilderId w
                      p ctx ui artifact r))
    `prefix_of` [ChooseDatacenter; CreateFolder; CreateSnapshot; MarkAsTemplate] /\
  (forall c r1,
      accepted vspherepost_BuilderId vsphere_BuilderId artifact ->
      NewClient w (url p) (Insecure (config p)) r = (inl c, r1) ->
      cancelled_after ctx = None ->
      (forall s state r',
          GetOk state "error" = None ->
          (step_Run w s ctx state r').1.1 = ActionContinue /\
          GetOk (step_Run w s ctx state r').1.2 "error" = None) ->
      kinds_run (calls (PostProcess vspherepost_BuilderId vsphere_BuilderId w
                          p ctx ui artifact r))
        = [ChooseDatacenter; CreateFolder; CreateSnapshot; MarkAsTemplate]).
Proof.
  split; [reflexivity|]. split; [reflexivity|]. split; [|split].
  - apply PostProcess_steps_run.
  - unfold kinds_run.
    change [ChooseDatacenter; CreateFolder; CreateSnapshot; MarkAsTemplate]
      with (kind_of <$> steps_of p artifact).
    destruct (PostProcess_steps_run vspherepost_BuilderId vsphere_BuilderId
                w p ctx ui artifact r) as [k Hk].
    exists (kind_of <$> k). rewrite Hk, fmap_app. reflexivity.
  - intros c r1 [Hb Hc] Hn Hctx Hgood.
    rewrite (PostProcess_connected _ _ _ _ _ _ _ _ _ _ Hb Hc Hn), calls_mk.
    unfold run_of. rewrite (Run_calls_all w _ ctx _ _ Hctx Hgood) by reflexivity.
    unfold kinds_run.
    rewrite !steps_run_app, steps_run_runs, steps_run_cleanups.
    reflexivity.
Qed.

Lemma steps_in_fixed_order_witness :
  kinds_run (calls (PostProcess Examples.vspherepost_id Examples.vsphere_id
                      (Examples.good_world false) Examples.p0 Examples.never
                      Examples.ui0 Examples.plain_artifact 0))
    = [ChooseDatacenter; CreateFolder; CreateSnapshot; MarkAsTemplate].
Proof.
  destruct (steps_in_fixed_order Examples.vspherepost_id Examples.vsphere_id
              (Examples.good_world false) Examples.p0 Examples.never
              Examples.ui0 Examples.plain_artifact 0) as (_ & _ & _ & _ & H).
  apply (H Examples.client0 1).
  - split; [eexists; vm_compute; reflexivity | reflexivity].
  - reflexivity.
  - reflexivity.
  - intros s state r' Hstate. split; [reflexivity | exact Hstate].
Defined.

(** C8 (as amended).  What [Logout] answers is dropped on the spot: replace
    the logout of the world by any other and [PostProcess] returns the same
    artifact, booleans and error and makes the same calls. *)
Theorem Logout_outcome_discarded
    (vspherepost_BuilderId vsphere_BuilderId : string) {R : Type} (w : World R)
    (logout : Client -> R -> option string * R)
    (p : PostProcessor) (ctx : Context) (ui : Ui) (artifact : Artifact) (r : R) :
  observable (PostProcess vspherepost_BuilderId vsphere_BuilderId
                (with_Logout w logout) p ctx ui artifact r)
    = observable (PostProcess vspherepost_BuilderId vsphere_BuilderId
                    w p ctx ui artifact r).
Proof.
  destruct (builtins vspherepost_BuilderId vsphere_BuilderId !! BuilderId artifact)
    as [v|] eqn:Hb.
  - destruct (conflict_of artifact) eqn:Hc.
    + rewrite !PostProcess_conflict by eauto. reflexivity.
    + destruct (NewClient w (url p) (Insecure (config p)) r) as [[c|e] r1] eqn:Hn.
      * rewrite (PostProcess_connected _ _ w _ _ _ _ _ _ _ (mk_is_Some _ _ Hb) Hc Hn).
        rewrite (PostProcess_connected _ _ (with_Logout w logout) _ _ _ _ _ c r1
                   (mk_is_Some _ _ Hb) Hc) by exact Hn.
        reflexivity.
      * rewrite (PostProcess_refused _ _ w _ _ _ _ _ _ _ (mk_is_Some _ _ Hb) Hc Hn).
        rewrite (PostProcess_refused _ _ (with_Logout w logout) _ _ _ _ _ e r1
                   (mk_is_Some _ _ Hb) Hc) by exact Hn.
        reflexivity.
  - rewrite !PostProcess_unsupported by exact Hb. reflexivity.
Qed.

(** C8 (as stated) fails in its first half: a logout that fails is recorded
    nowhere.  Here the session is logged out as the last call and the logout
    fails, yet results, calls — the messages to the user among them — and
    remote state are those of the run in which the logout succeeds. *)
Lemma Logout_failure_not_recorded_counterexample :
  last (calls (PostProcess Examples.vspherepost_id Examples.vsphere_id
                 (Examples.good_world true) Examples.p0 Examples.never Examples.ui0
                 Examples.plain_artifact 0))
    = Some (EvLogout Examples.client0) /\
  (forall n, (Client_Logout (Examples.good_world true) Examples.client0 n).1
             = Some "session is not authenticated") /\
  (forall n, (Client_Logout (Examples.good_world false) Examples.client0 n).1 = None) /\
  PostProcess Examples.vspherepost_id Examples.vsphere_id
    (Examples.good_world true) Examples.p0 Examples.never Examples.ui0
    Examples.plain_artifact 0
  = PostProcess Examples.vspherepost_id Examples.vsphere_id
      (Examples.good_world false) Examples.p0 Examples.never Examples.ui0
      Examples.plain_artifact 0.
Proof.
  split; [vm_compute; reflexivity|].
  split; [reflexivity|]. split; [reflexivity|].
  vm_compute. reflexivity.
Qed.

(** C7.  Once the configuration is decoded, [Configure] checks all three
    required fields, in whatever order the map is visited, and returns one
    error that holds a "must be set" entry for each empty field — for all of
    them, and for no field that is set.  [Configure] is a function of the
    post-processor and its input alone: it has no access to the vSphere
    client, so nothing is connected while it runs. *)
Theorem Configure_reports_all_missing
    (Raws : Type) (config_Decode : Config -> Raws -> Config * option error)
    (url_Parse : string -> net_url.URL + string)
    (p : PostProcessor) (raws : Raws) (order : list string) (cfg : Config) :
  config_Decode (config p) raws = (cfg, None) ->
  order ≡ₚ vc_keys ->
  Host cfg = "" \/ Username cfg = "" \/ Password cfg = "" ->
  exists errs,
    (Configure Raws config_Decode url_Parse p raws order).2 = Some (MultiError errs) /\
    (Host cfg = "" <-> must_be_set "host" ∈ errs) /\
    (Username cfg = "" <-> must_be_set "username" ∈ errs) /\
    (Password cfg = "" <-> must_be_set "password" ∈ errs).
Proof.
  intros Hdec Hperm Hmissing.
  destruct (check_required_reports cfg order Hperm) as (Hh & Hu & Hp).
  unfold Configure. rewrite Hdec.
  destruct (url_Parse (sdk_endpoint (Host cfg))) as [sdk|err].
  - assert (Hlen : Nat.ltb 0 (length (check_required cfg order [])) = true).
    { apply Nat.ltb_lt.
      destruct (check_required cfg order []) as [|e errs] eqn:He; [|simpl; lia].
      rewrite elem_of_nil in Hh, Hu, Hp. tauto. }
    rewrite Hlen. exists (check_required cfg order []).
    split; [reflexivity|]. tauto.
  - exists (MultiErrorAppend (check_required cfg order []) (invalid_endpoint err)).
    split; [reflexivity|].
    unfold MultiErrorAppend. rewrite !elem_of_app, !list_elem_of_singleton.
    pose proof (must_be_set_not_endpoint "host" err) as Nh.
    pose proof (must_be_set_not_endpoint "username" err) as Nu.
    pose proof (must_be_set_not_endpoint "password" err) as Np.
    unfold vc_keys in Nh, Nu, Np. rewrite !elem_of_cons in Nh, Nu, Np.
    intuition.
Qed.

Lemma Configure_reports_all_missing_witness :
  exists errs,
    (Configure Config Examples.decode_ok Examples.parse_simple Examples.p_fresh
       Examples.cfg_empty ["password"; "host"; "username"]).2
      = Some (MultiError errs) /\
    must_be_set "host" ∈ errs /\
    must_be_set "username" ∈ errs /\
    must_be_set "password" ∈ errs.
Proof.
  destruct (Configure_reports_all_missing Config Examples.decode_ok
              Examples.parse_simple Examples.p_fresh Examples.cfg_empty
              ["password"; "host"; "username"] Examples.cfg_empty)
    as (errs & He & Hh & Hu & Hp).
  - reflexivity.
  - unfold vc_keys.
    apply (Permutation_cons_app ["host"; "username"] [] "password").
    reflexivity.
  - left. reflexivity.
  - exists errs. split; [exact He|].
    split; [apply Hh; reflexivity|]. split; [apply Hu | apply Hp]; reflexivity.
Defined.

(** C9.  When the configuration is decoded and the endpoint
    "https://<host>/sdk" parses, [Configure] stores the parsed URL, with the
    user name and password as its user information, in the post-processor —
    before it looks at the errors gathered.  So a call that returns the
    missing-field errors has changed the stored URL all the same. *)
Theorem Configure_sets_url_despite_errors
    (Raws : Type) (config_Decode : Config -> Raws -> Config * option error)
    (url_Parse : string -> net_url.URL + string)
    (p : PostProcessor) (raws : Raws) (order : list string) (cfg : Config)
    (sdk : net_url.URL) :
  config_Decode (config p) raws = (cfg, None) ->
  url_Parse ("https://" +:+ Host cfg +:+ "/sdk") = inl sdk ->
  url (Configure Raws config_Decode url_Parse p raws order).1
    = Some (net_url.set_User sdk (net_url.UserPassword (Username cfg) (Password cfg))) /\
  (order ≡ₚ vc_keys ->
   Host cfg = "" \/ Username cfg = "" \/ Password cfg = "" ->
   (Configure Raws config_Decode url_Parse p raws order).2
     = Some (MultiError (check_required cfg order [])) /\
   check_required cfg order [] <> []).
Proof.
  intros Hdec Hparse.
  unfold Configure. rewrite Hdec. unfold sdk_endpoint. rewrite Hparse.
  split.
  - destruct (Nat.ltb 0 (length (check_required cfg order []))); reflexivity.
  - intros Hperm Hmissing.
    destruct (check_required_reports cfg order Hperm) as (Hh & Hu & Hp).
    destruct (check_required cfg order []) as [|e errs] eqn:He.
    + rewrite elem_of_nil in Hh, Hu, Hp. tauto.
    + split; [reflexivity | discriminate].
Qed.

Lemma Configure_sets_url_despite_errors_witness :
  url Examples.p_fresh = None /\
  url (Configure Config Examples.decode_ok Examples.parse_simple Examples.p_fresh
         Examples.cfg_no_user ["host"; "username"; "password"]).1
    = Some {| net_url.Scheme := "https";
              net_url.User := Some (net_url.UserPassword "" "secret");
              net_url.Host := "vcenter.example.com";
              net_url.Path := "/sdk" |} /\
  (Configure Config Examples.decode_ok Examples.parse_simple Examples.p_fresh
     Examples.cfg_no_user ["host"; "username"; "password"]).2
    = Some (MultiError [must_be_set "username"]).
Proof.
  split; [reflexivity|].
  destruct (Configure_sets_url_despite_errors Config Examples.decode_ok
              Examples.parse_simple Examples.p_fresh Examples.cfg_no_user
              ["host"; "username"; "password"] Examples.cfg_no_user
              {| net_url.Scheme := "https"; net_url.User := None;
                 net_url.Host := "vcenter.example.com"; net_url.Path := "/sdk" |})
    as [Hurl Herr].
  - reflexivity.
  - reflexivity.
  - split; [exact Hurl|].
    destruct Herr as [Herr _]; [reflexivity | right; left; reflexivity |].
    exact Herr.
Defined.

(** * Further properties of [Configure] and [PostProcess] *)

(** Read over the keys in any order, the loop gathers one error for each
    empty field and nothing else. *)
Lemma check_required_exact (c : Config) (order : list string) :
  order ≡ₚ vc_keys ->
  check_required c order []
    ≡ₚ (if String.eqb (Host c) "" then [must_be_set "host"] else [])
       ++ (if String.eqb (Username c) "" then [must_be_set "username"] else [])
       ++ (if String.eqb (Password c) "" then [must_be_set "password"] else []).
Proof.
  intros Hperm. rewrite check_required_omap, app_nil_l.
  rewrite (omap_Permutation _ _ _ Hperm).
  destruct (vc_lookup c) as (Hh & Hu & Hp).
  unfold vc_keys. cbn [omap list_omap]. unfold missing_error.
  rewrite Hh, Hu, Hp.
  destruct (String.eqb (Host c) ""), (String.eqb (Username c) ""),
    (String.eqb (Password c) ""); reflexivity.
Qed.

Lemma check_required_Permutation (c : Config) (o1 o2 : list string) :
  o1 ≡ₚ o2 -> check_required c o1 [] ≡ₚ check_required c o2 [].
Proof.
  intros Hperm. rewrite !check_required_omap, !app_nil_l.
  apply omap_Permutation. exact Hperm.
Qed.

(** X1.  When decoding fails, [Configure] returns the decoder's error as it
    is and goes no further: no required field is checked, and the stored URL
    is the one from before the call. *)
Theorem Configure_decode_error
    (Raws : Type) (config_Decode : Config -> Raws -> Config * option error)
    (url_Parse : string -> net_url.URL + string)
    (p : PostProcessor) (raws : Raws) (order : list string)
    (cfg : Config) (err : error) :
  config_Decode (config p) raws = (cfg, Some err) ->
  (Configure Raws config_Decode url_Parse p raws order).2 = Some err /\
  url (Configure Raws config_Decode url_Parse p raws order).1 = url p /\
  config (Configure Raws config_Decode url_Parse p raws order).1 = cfg.
Proof.
  intros Hdec. unfold Configure. rewrite Hdec. repeat split.
Qed.

Lemma Configure_decode_error_witness :
  (Configure Config Examples.decode_fails Examples.parse_simple Examples.p0
     Examples.cfg_empty ["host"; "username"; "password"]).2
    = Some (errorString "unknown configuration key: hostname") /\
  url (Configure Config Examples.decode_fails Examples.parse_simple Examples.p0
         Examples.cfg_empty ["host"; "username"; "password"]).1
    = Some Examples.sdk0.
Proof.
  destruct (Configure_decode_error Config Examples.decode_fails Examples.parse_simple
              Examples.p0 Examples.cfg_empty ["host"; "username"; "password"]
              Examples.cfg0 (errorString "unknown configuration key: hostname"))
    as (He & Hu & _).
  - reflexivity.
  - split; [exact He | exact Hu].
Defined.



(** X3.  [Configure] returns no error exactly when decoding succeeds, host,
    user name and password are all non-empty and the endpoint parses. *)
Theorem Configure_succeeds_iff
    (Raws : Type) (config_Decode : Config -> Raws -> Config * option error)
    (url_Parse : string -> net_url.URL + string)
    (p : PostProcessor) (raws : Raws) (order : list string) :
  order ≡ₚ vc_keys ->
  (Configure Raws config_Decode url_Parse p raws order).2 = None <->
  exists cfg sdk,
    config_Decode (config p) raws = (cfg, None) /\
    Host cfg <> "" /\ Username cfg <> "" /\ Password cfg <> "" /\
    url_Parse ("https://" +:+ Host cfg +:+ "/sdk") = inl sdk.
Proof.
  intros Hperm. unfold Configure, sdk_endpoint.
  destruct (config_Decode (config p) raws) as [cfg [e|]] eqn:Hdec.
  - split; [discriminate|]. intros (c & sdk & [=] & _).
  - pose proof (check_required_exact cfg order Hperm) as Hex.
    destruct (url_Parse ("https://" +:+ Host cfg +:+ "/sdk")) as [sdk|err] eqn:Hparse.
    + destruct (check_required cfg order []) as [|e errs] eqn:Hcr; cbn.
      * split; [intros _|reflexivity].
        exists cfg, sdk. split; [reflexivity|].
        destruct (String.eqb_spec (Host cfg) ""), (String.eqb_spec (Username cfg) ""),
          (String.eqb_spec (Password cfg) "");
          try (apply Permutation_nil_l in Hex; discriminate Hex).
        repeat split; assumption.
      * split; [discriminate|].
        intros (c & sdk' & [= <-] & Hh & Hu & Hp & _).
        apply String.eqb_neq in Hh, Hu, Hp. rewrite Hh, Hu, Hp in Hex.
        apply Permutation_nil_r in Hex. discriminate Hex.
    + split; [discriminate|].
      intros (c & sdk' & [= <-] & _ & _ & _ & Hs). rewrite Hparse in Hs.
      discriminate Hs.
Qed.

Lemma Configure_succeeds_iff_witness :
  (Configure Config Examples.decode_ok Examples.parse_simple Examples.p_fresh
     Examples.cfg0 ["username"; "password"; "host"]).2 = None.
Proof.
  apply (Configure_succeeds_iff Config Examples.decode_ok Examples.parse_simple
           Examples.p_fresh Examples.cfg0 ["username"; "password"; "host"]).
  - unfold vc_keys.
    apply (Permutation_cons_app ["host"] ["password"] "username").
    apply perm_swap.
  - exists Examples.cfg0,
      {| net_url.Scheme := "https"; net_url.User := None;
         net_url.Host := "vcenter.example.com"; net_url.Path := "/sdk" |}.
    repeat split; discriminate.
Defined.

(** X4.  Once decoding has succeeded, what [Configure] returns is never an
    empty collection of errors: it is no error at all, or an aggregate with
    at least one entry. *)
Theorem Configure_error_never_empty
    (Raws : Type) (config_Decode : Config -> Raws -> Config * option error)
    (url_Parse : string -> net_url.URL + string)
    (p : PostProcessor) (raws : Raws) (order : list string) (cfg : Config) :
  config_Decode (config p) raws = (cfg, None) ->
  (Configure Raws config_Decode url_Parse p raws order).2 <> Some (MultiError []) /\
  ((Configure Raws config_Decode url_Parse p raws order).2 = None \/
   exists e errs,
     (Configure Raws config_Decode url_Parse p raws order).2
       = Some (MultiError (e :: errs))).
Proof.
  intros Hdec. unfold Configure. rewrite Hdec.
  destruct (url_Parse (sdk_endpoint (Host cfg))) as [sdk|err].
  - destruct (check_required cfg order []) as [|e errs]; cbn.
    + split; [discriminate | left; reflexivity].
    + split; [discriminate | right; eauto].
  - unfold MultiErrorAppend.
    destruct (check_required cfg order []) as [|e errs]; cbn.
    + split; [discriminate | right; eauto].
    + split; [discriminate | right; eauto].
Qed.

Lemma Configure_error_never_empty_witness :
  (Configure Config Examples.decode_ok Examples.parse_simple Examples.p_fresh
     Examples.cfg_no_user ["host"; "username"; "password"]).2
    <> Some (MultiError []).
Proof.
  apply (Configure_error_never_empty Config Examples.decode_ok Examples.parse_simple
           Examples.p_fresh Examples.cfg_no_user ["host"; "username"; "password"]
           Examples.cfg_no_user).
  reflexivity.
Defined.

(** X5.  The order in which the map of required fields is visited decides
    the order of the entries of the returned error and nothing else: two
    visits leave the same post-processor behind, fail or succeed together,
    and return the same entries up to their order. *)
Theorem Configure_order_irrelevant
    (Raws : Type) (config_Decode : Config -> Raws -> Config * option error)
    (url_Parse : string -> net_url.URL + string)
    (p : PostProcessor) (raws : Raws) (o1 o2 : list string) :
  o1 ≡ₚ o2 ->
  (Configure Raws config_Decode url_Parse p raws o1).1
    = (Configure Raws config_Decode url_Parse p raws o2).1 /\
  ((Configure Raws config_Decode url_Parse p raws o1).2 = None <->
   (Configure Raws config_Decode url_Parse p raws o2).2 = None) /\
  (forall msg,
      (Configure Raws config_Decode url_Parse p raws o1).2 = Some (errorString msg) ->
      (Configure Raws config_Decode url_Parse p raws o2).2 = Some (errorString msg)) /\
  (forall errs1,
      (Configure Raws config_Decode url_Parse p raws o1).2 = Some (MultiError errs1) ->
      exists errs2,
        (Configure Raws config_Decode url_Parse p raws o2).2 = Some (MultiError errs2) /\
        errs1 ≡ₚ errs2).
Proof.
  intros Hperm. unfold Configure.
  destruct (config_Decode (config p) raws) as [cfg [e|]].
  - split; [reflexivity|]. split; [tauto|]. split; [tauto|].
    intros errs1 H. exists errs1. split; [exact H | reflexivity].
  - pose proof (check_required_Permutation cfg o1 o2 Hperm) as Hcr.
    pose proof (Permutation_length Hcr) as Hlen.
    destruct (url_Parse (sdk_endpoint (Host cfg))) as [sdk|err].
    + rewrite Hlen.
      destruct (Nat.ltb 0 (length (check_required cfg o2 []))); cbn.
      * split; [reflexivity|]. split; [split; discriminate|].
        split; [discriminate|].
        intros errs1 [= <-]. eexists. split; [reflexivity | exact Hcr].
      * split; [reflexivity|]. split; [tauto|]. split; discriminate.
    + cbn. split; [reflexivity|]. split; [split; discriminate|].
      split; [discriminate|].
      intros errs1 [= <-]. eexists. split; [reflexivity|].
      unfold MultiErrorAppend. rewrite Hcr. reflexivity.
Qed.

Lemma Configure_order_irrelevant_witness :
  (Configure Config Examples.decode_ok Examples.parse_simple Examples.p_fresh
     Examples.cfg_empty ["host"; "username"; "password"]).1
    = (Configure Config Examples.decode_ok Examples.parse_simple Examples.p_fresh
         Examples.cfg_empty ["username"; "host"; "password"]).1.
Proof.
  apply (Configure_order_irrelevant Config Examples.decode_ok Examples.parse_simple
           Examples.p_fresh Examples.cfg_empty
           ["host"; "username"; "password"] ["username"; "host"; "password"]).
  apply perm_swap.
Defined.

(** X6.  With decoding done, the entries of the error [Configure] returns are
    exactly these, each once: "host must be set", "username must be set" and
    "password must be set" for the fields that are empty, and the
    invalid-endpoint error if the endpoint does not parse. *)
Theorem Configure_errors_exact
    (Raws : Type) (config_Decode : Config -> Raws -> Config * option error)
    (url_Parse : string -> net_url.URL + string)
    (p : PostProcessor) (raws : Raws) (order : list string) (cfg : Config)
    (errs : list error) :
  config_Decode (config p) raws = (cfg, None) ->
  order ≡ₚ vc_keys ->
  (Configure Raws config_Decode url_Parse p raws order).2 = Some (MultiError errs) ->
  errs ≡ₚ (if String.eqb (Host cfg) "" then [must_be_set "host"] else [])
          ++ (if String.eqb (Username cfg) "" then [must_be_set "username"] else [])
          ++ (if String.eqb (Password cfg) "" then [must_be_set "password"] else [])
          ++ match url_Parse ("https://" +:+ Host cfg +:+ "/sdk") with
             | inl _ => []
             | inr err => [invalid_endpoint err]
             end.
Proof.
  intros Hdec Hperm. unfold Configure, sdk_endpoint. rewrite Hdec.
  pose proof (check_required_exact cfg order Hperm) as Hex.
  destruct (url_Parse ("https://" +:+ Host cfg +:+ "/sdk")) as [sdk|err].
  - destruct (Nat.ltb 0 (length (check_required cfg order []))); [|discriminate].
    cbn. intros [= <-]. rewrite Hex, app_nil_r. reflexivity.
  - cbn. intros [= <-]. unfold MultiErrorAppend. rewrite Hex, <- !app_assoc.
    reflexivity.
Qed.

Lemma Configure_errors_exact_witness :
  [must_be_set "password"; must_be_set "host"; must_be_set "username"]
    ≡ₚ [must_be_set "host"; must_be_set "username"; must_be_set "password"].
Proof.
  apply (Configure_errors_exact Config Examples.decode_ok Examples.parse_simple
           Examples.p_fresh Examples.cfg_empty ["password"; "host"; "username"]
           Examples.cfg_empty
           [must_be_set "password"; must_be_set "host"; must_be_set "username"]).
  - reflexivity.
  - unfold vc_keys.
    apply (Permutation_cons_app ["host"; "username"] [] "password").
    reflexivity.
  - reflexivity.
Defined.

(** X7.  [Configure] followed by [PostProcess]: once [Configure] has returned
    no error, a call of [PostProcess] on an accepted artifact connects to the
    endpoint parsed from "https://<host>/sdk", with the decoded user name and
    password as its user information and the decoded insecure flag. *)
Theorem PostProcess_connects_as_configured
    (Raws : Type) (config_Decode : Config -> Raws -> Config * option error)
    (url_Parse : string -> net_url.URL + string)
    (vspherepost_BuilderId vsphere_BuilderId : string) {R : Type} (w : World R)
    (p p' : PostProcessor) (raws : Raws) (order : list string)
    (ctx : Context) (ui : Ui) (artifact : Artifact) (r : R) :
  Configure Raws config_Decode url_Parse p raws order = (p', None) ->
  accepted vspherepost_BuilderId vsphere_BuilderId artifact ->
  exists cfg sdk rest,
    config_Decode (config p) raws = (cfg, None) /\
    url_Parse ("https://" +:+ Host cfg +:+ "/sdk") = inl sdk /\
    calls (PostProcess vspherepost_BuilderId vsphere_BuilderId w p' ctx ui artifact r)
      = EvMessage ui "Waiting 10s for VMware vSphere to start"
        :: EvSleep (10 * time_Second)
        :: EvNewClient
             (Some (net_url.set_User sdk
                      (net_url.UserPassword (Username cfg) (Password cfg))))
             (Insecure cfg)
        :: rest.
Proof.
  intros Hconf Hacc.
  destruct (PostProcess_accepted_calls vspherepost_BuilderId vsphere_BuilderId
              w p' ctx ui artifact r Hacc) as (rest & Hcalls & _).
  unfold Configure, sdk_endpoint in Hconf.
  destruct (config_Decode (config p) raws) as [cfg [e|]] eqn:Hdec;
    [discriminate Hconf|].
  destruct (url_Parse ("https://" +:+ Host cfg +:+ "/sdk")) as [sdk|err] eqn:Hparse;
    [|discriminate Hconf].
  destruct (Nat.ltb 0 (length (check_required cfg order []))); [discriminate Hconf|].
  injection Hconf as <-.
  exists cfg, sdk, rest. split; [reflexivity|]. split; [exact Hparse|].
  exact Hcalls.
Qed.

Lemma PostProcess_connects_as_configured_witness :
  exists cfg sdk rest,
    Examples.decode_ok (config Examples.p_fresh) Examples.cfg0 = (cfg, None) /\
    Examples.parse_simple ("https://" +:+ Host cfg +:+ "/sdk") = inl sdk /\
    calls (PostProcess Examples.vspherepost_id Examples.vsphere_id
             Examples.unreachable_world Examples.p0 Examples.never Examples.ui0
             Examples.plain_artifact 0)
      = EvMessage Examples.ui0 "Waiting 10s for VMware vSphere to start"
        :: EvSleep (10 * time_Second)
        :: EvNewClient
             (Some (net_url.set_User sdk
                      (net_url.UserPassword (Username cfg) (Password cfg))))
             (Insecure cfg)
        :: rest.
Proof.
  apply (PostProcess_connects_as_configured Config Examples.decode_ok
           Examples.parse_simple Examples.vspherepost_id Examples.vsphere_id
           Examples.unreachable_world Examples.p_fresh Examples.p0 Examples.cfg0
           ["host"; "username"; "password"] Examples.never Examples.ui0
           Examples.plain_artifact 0).
  - reflexivity.
  - split; [eexists; vm_compute; reflexivity | reflexivity].
Defined.

(** X8.  [PostProcess] does not look at its context before it hands it to
    the runner, and afterwards reads nothing but the "error" entry of the
    state bag.  So with a context that is cancelled on entry and an accepted
    artifact it still announces the wait, sleeps, connects and logs out; the
    runner starts no step; and the artifact is returned as a success. *)
Theorem PostProcess_cancelled_on_entry
    (vspherepost_BuilderId vsphere_BuilderId : string) {R : Type} (w : World R)
    (p : PostProcessor) (ctx : Context) (ui : Ui) (artifact : Artifact) (r : R)
    (c : Client) (r1 : R) :
  accepted vspherepost_BuilderId vsphere_BuilderId artifact ->
  NewClient w (url p) (Insecure (config p)) r = (inl c, r1) ->
  cancelled_after ctx = Some 0 ->
  PostProcess vspherepost_BuilderId vsphere_BuilderId w p ctx ui artifact r
    = (Return (Some artifact) true true None,
       [ EvMessage ui "Waiting 10s for VMware vSphere to start";
         EvSleep (10 * time_Second);
         EvNewClient (url p) (Insecure (config p));
         EvLogout c ],
       (Client_Logout w c r1).2).
Proof.
  intros [Hb Hc] Hn Hctx.
  rewrite (PostProcess_connected _ _ _ _ _ _ _ _ _ _ Hb Hc Hn).
  assert (Hrun : run_of w p ctx ui artifact c r1
                 = (Put (seeded ui c) "cancelled" (VBool true), [], r1)).
  { unfold run_of, Run, NewRunnerWithPauseFn, steps_of. cbn [Steps run_steps].
    unfold ctx_Err. rewrite Hctx. reflexivity. }
  rewrite Hrun, result_mk, calls_mk, remote_mk. reflexivity.
Qed.

Lemma PostProcess_cancelled_on_entry_witness :
  result (PostProcess Examples.vspherepost_id Examples.vsphere_id
            (Examples.failing_world ChooseDatacenter) Examples.p0 Examples.cancelled
            Examples.ui0 Examples.plain_artifact 0)
    = Return (Some Examples.plain_artifact) true true None.
Proof.
  rewrite (PostProcess_cancelled_on_entry Examples.vspherepost_id Examples.vsphere_id
             (Examples.failing_world ChooseDatacenter) Examples.p0 Examples.cancelled
             Examples.ui0 Examples.plain_artifact 0 Examples.client0 1).
  - reflexivity.
  - split; [eexists; vm_compute; reflexivity | reflexivity].
  - reflexivity.
  - reflexivity.
Defined.

(** X9.  When the connection is refused, [PostProcess] has made exactly three
    calls — the message, the sleep and the connection attempt — and stops:
    no step is run or cleaned up, and the remote side is left as the refused
    attempt left it. *)
Theorem PostProcess_refused_runs_nothing
    (vspherepost_BuilderId vsphere_BuilderId : string) {R : Type} (w : World R)
    (p : PostProcessor) (ctx : Context) (ui : Ui) (artifact : Artifact) (r : R)
    (err : string) (r1 : R) :
  accepted vspherepost_BuilderId vsphere_BuilderId artifact ->
  NewClient w (url p) (Insecure (config p)) r = (inr err, r1) ->
  calls (PostProcess vspherepost_BuilderId vsphere_BuilderId w p ctx ui artifact r)
    = [ EvMessage ui "Waiting 10s for VMware vSphere to start";
        EvSleep (10 * time_Second);
        EvNewClient (url p) (Insecure (config p)) ] /\
  steps_run (calls (PostProcess vspherepost_BuilderId vsphere_BuilderId w
                      p ctx ui artifact r)) = [] /\
  remote_after (PostProcess vspherepost_BuilderId vsphere_BuilderId w
                  p ctx ui artifact r) = r1.
Proof.
  intros [Hb Hc] Hn.
  rewrite (PostProcess_refused _ _ _ _ _ _ _ _ _ _ Hb Hc Hn).
  repeat split.
Qed.

Lemma PostProcess_refused_runs_nothing_witness :
  steps_run (calls (PostProcess Examples.vspherepost_id Examples.vsphere_id
                      Examples.unreachable_world Examples.p0 Examples.never
                      Examples.ui0 Examples.plain_artifact 0)) = [] /\
  remote_after (PostProcess Examples.vspherepost_id Examples.vsphere_id
                  Examples.unreachable_world Examples.p0 Examples.never
                  Examples.ui0 Examples.plain_artifact 0) = 1.
Proof.
  destruct (PostProcess_refused_runs_nothing Examples.vspherepost_id
              Examples.vsphere_id Examples.unreachable_world Examples.p0
              Examples.never Examples.ui0 Examples.plain_artifact 0
              "dial tcp: connection refused" 1) as (_ & Hs & Hr).
  - split; [eexists; vm_compute; reflexivity | reflexivity].
  - reflexivity.
  - split; [exact Hs | exact Hr].
Defined.
